(** * Finance agent demo: search-context assembly and citation tracking

    A shallow embedding of the two Streamlit scripts of the repository,
    [local_web_search.py] (Tavily search + local Ollama model, streamed) and
    [web_search_agent.py] (Perplexity fused search-and-answer API).

    Each script is re-run from top to bottom on every user interaction; the
    only state surviving a run is [st.session_state.messages].  A run is
    modelled as a computation over that list which also records, in order,
    the UI calls and the outbound requests it performs.  The outside world
    (Tavily, Ollama, the HTTP endpoint) is an oracle handed to the run. *)

From Stdlib Require Import String Ascii List ZArith Bool PeanoNat Lia.
From Stdlib Require Import Decimal DecimalString.
Import ListNotations.
Local Open Scope list_scope.
Local Open Scope string_scope.
Set Warnings "-register-all".

(** ** Python values *)

(** The values that flow through the scripts: what [response.json()] can
    return, plus the strings and lists the scripts build themselves.
    Numbers are kept to the integers; no script computes with them. *)
Inductive value : Type :=
| VNone
| VBool (b : bool)
| VInt (z : Z)
| VStr (s : string)
| VList (l : list value)
| VDict (d : list (string * value)).

(** Python truthiness, as tested by [if x:] and [not x]. *)
Definition truthy (v : value) : bool :=
  match v with
  | VNone => false
  | VBool b => b
  | VInt z => negb (Z.eqb z 0)
  | VStr s => negb (String.eqb s "")
  | VList l => match l with [] => false | _ :: _ => true end
  | VDict d => match d with [] => false | _ :: _ => true end
  end.

Definition str_truthy (s : string) : bool := negb (String.eqb s "").

(** [not context] where [context] is [None] or a [str]. *)
Definition opt_str_falsy (c : option string) : bool :=
  match c with
  | None => true
  | Some s => negb (str_truthy s)
  end.

Definition nl : string := String (ascii_of_nat 10) EmptyString.
Definition dquote : string := String (ascii_of_nat 34) EmptyString.

(** Association-list dictionaries: the first binding of a key counts. *)
Fixpoint dict_get {V : Type} (d : list (string * V)) (k : string) : option V :=
  match d with
  | [] => None
  | (k', v) :: d' => if String.eqb k' k then Some v else dict_get d' k
  end.

Definition dict_mem {V : Type} (d : list (string * V)) (k : string) : bool :=
  match dict_get d k with Some _ => true | None => false end.

(** ** Exceptions *)

Inductive exn : Type :=
| KeyError (key_repr : string)
| IndexError (msg : string)
| TypeError (msg : string)
| AttributeError (msg : string)
| LibraryError (msg : string).   (* raised inside tavily / ollama / requests *)

(** [str(e)] *)
Definition str_exn (e : exn) : string :=
  match e with
  | KeyError r => r
  | IndexError m | TypeError m | AttributeError m | LibraryError m => m
  end.

(** [repr] of the literal keys the scripts use (none contains a quote). *)
Definition repr_key (k : string) : string := "'" ++ k ++ "'".

Inductive res (A : Type) : Type :=
| Ok (a : A)
| Err (e : exn).
Arguments Ok {A} a.
Arguments Err {A} e.

Definition res_bind {A B : Type} (r : res A) (k : A -> res B) : res B :=
  match r with
  | Ok a => k a
  | Err e => Err e
  end.

Declare Scope res_scope.
Delimit Scope res_scope with res.
Notation "'let?' x ':=' r 'in' k" := (res_bind r (fun x => k))
  (at level 10, x pattern, r at level 100, k at level 200) : res_scope.

(** Characters of a Python [str] held as UTF-8: a continuation byte
    (10xxxxxx) stays with the byte sequence it continues. *)
Definition is_continuation (a : ascii) : bool :=
  match a with
  | Ascii _ _ _ _ _ _ false true => true
  | _ => false
  end.

Fixpoint take_continuation (s : string) : string * string :=
  match s with
  | String a s' =>
      if is_continuation a
      then let (c, r) := take_continuation s' in (String a c, r)
      else (EmptyString, s)
  | EmptyString => (EmptyString, EmptyString)
  end.

Fixpoint chars_fuel (fuel : nat) (s : string) : list string :=
  match fuel, s with
  | S fuel', String a s' =>
      let (c, r) := take_continuation s' in
      String a c :: chars_fuel fuel' r
  | _, _ => []
  end.

Definition chars (s : string) : list string := chars_fuel (String.length s) s.

(** [sub in s] for strings. *)
Fixpoint is_substring (sub s : string) : bool :=
  if String.prefix sub s then true
  else match s with
       | String _ s' => is_substring sub s'
       | EmptyString => false
       end.

(** [k in v] for a string [k]. *)
Definition py_contains (k : string) (v : value) : res bool :=
  match v with
  | VDict d => Ok (dict_mem d k)
  | VList l =>
      Ok (existsb (fun x => match x with VStr s => String.eqb s k | _ => false end) l)
  | VStr s => Ok (is_substring k s)
  | VNone | VBool _ | VInt _ => Err (TypeError "argument is not iterable")
  end.

(** [v[k]] for a string key [k]. *)
Definition getitem (v : value) (k : string) : res value :=
  match v with
  | VDict d =>
      match dict_get d k with
      | Some x => Ok x
      | None => Err (KeyError (repr_key k))
      end
  | _ => Err (TypeError "indices must be integers or object is not subscriptable")
  end.

(** [v[0]] *)
Definition getitem0 (v : value) : res value :=
  match v with
  | VList (x :: _) => Ok x
  | VList [] => Err (IndexError "list index out of range")
  | VStr s =>
      match chars s with
      | c :: _ => Ok (VStr c)
      | [] => Err (IndexError "string index out of range")
      end
  | VDict _ => Err (KeyError "0")
  | VNone | VBool _ | VInt _ => Err (TypeError "object is not subscriptable")
  end.

(** [v.get(k, default)]; only dictionaries have the method. *)
Definition py_get (v : value) (k : string) (default : value) : res value :=
  match v with
  | VDict d =>
      match dict_get d k with
      | Some x => Ok x
      | None => Ok default
      end
  | _ => Err (AttributeError "object has no attribute 'get'")
  end.

(** What [for x in v] iterates over. *)
Definition py_iter (v : value) : res (list value) :=
  match v with
  | VList l => Ok l
  | VStr s => Ok (map VStr (chars s))
  | VDict d => Ok (map (fun kv => VStr (fst kv)) d)
  | VNone | VBool _ | VInt _ => Err (TypeError "object is not iterable")
  end.

(** ** Conversation history *)

(** One entry of [st.session_state.messages].  User entries are stored
    without a ["citations"] key, assistant entries with one. *)
Record Turn : Type := mkTurn {
  role : string;
  content : value;
  citations : option value
}.

Definition user_turn (prompt : string) : Turn :=
  {| role := "user"; content := VStr prompt; citations := None |}.

Definition assistant_turn (full_response cites : value) : Turn :=
  {| role := "assistant"; content := full_response; citations := Some cites |}.

(** ["citations" in msg and msg["citations"]] *)
Definition has_citations (msg : Turn) : bool :=
  match citations msg with
  | Some c => truthy c
  | None => false
  end.

(** ** Observable actions of a run *)

Inductive Event : Type :=
| st_error (msg : string)
| st_error_f (prefix : string) (v : value)          (* st.error(f"{prefix}{v}") *)
| st_chat_message (who : string)
| st_markdown (v : value)
| st_markdown_f (prefix : string) (v : value)       (* st.markdown(f"{prefix}{v}") *)
| st_expander (label : string)
| st_status (label : string)
| status_write (msg : string)
| status_update (label state : string)
| st_spinner (label : string)
| st_empty
| placeholder_markdown (v : value)
| tavily_search (key query : string)
| ollama_chat (model : string) (msgs : list (string * string))
| requests_post (url : string) (headers : list (string * string)) (payload : value).

Definition is_network (e : Event) : bool :=
  match e with
  | tavily_search _ _ | ollama_chat _ _ | requests_post _ _ _ => true
  | _ => false
  end.

Definition is_error (e : Event) : bool :=
  match e with
  | st_error _ | st_error_f _ _ => true
  | _ => false
  end.

Definition is_generation (e : Event) : bool :=
  match e with
  | ollama_chat _ _ => true
  | _ => false
  end.

(** ** The script monad *)

(** State of a run: the persistent history and the actions so far. *)
Record Script : Type := mkScript {
  messages : list Turn;
  ui : list Event
}.

(** A run ends normally, by [st.stop()], or by an uncaught exception. *)
Inductive Outcome (A : Type) : Type :=
| Done (a : A)
| Stopped
| Uncaught (e : exn).
Arguments Done {A} a.
Arguments Stopped {A}.
Arguments Uncaught {A} e.

Definition M (A : Type) : Type := Script -> Outcome A * Script.

Definition ret {A : Type} (a : A) : M A := fun s => (Done a, s).

Definition bind {A B : Type} (m : M A) (k : A -> M B) : M B :=
  fun s =>
    match m s with
    | (Done a, s') => k a s'
    | (Stopped, s') => (Stopped, s')
    | (Uncaught e, s') => (Uncaught e, s')
    end.

Declare Scope script_scope.
Delimit Scope script_scope with script.
Notation "x <- m ;; k" := (bind m (fun x => k))
  (at level 100, m at next level, right associativity) : script_scope.
Notation "' p <- m ;; k" := (bind m (fun x => match x with p => k end))
  (at level 100, p pattern, m at next level, right associativity) : script_scope.
Notation "m ;; k" := (bind m (fun _ => k))
  (at level 100, right associativity) : script_scope.
Local Open Scope script_scope.

Definition emit (e : Event) : M unit :=
  fun s => (Done tt, {| messages := messages s; ui := ui s ++ [e] |}).

Definition get_messages : M (list Turn) :=
  fun s => (Done (messages s), s).

(** [st.session_state.messages.append(t)] *)
Definition messages_append (t : Turn) : M unit :=
  fun s => (Done tt, {| messages := messages s ++ [t]; ui := ui s |}).

(** [st.session_state.messages = []] *)
Definition messages_clear : M unit :=
  fun s => (Done tt, {| messages := []; ui := ui s |}).

Definition st_stop {A : Type} : M A := fun s => (Stopped, s).

Definition raise {A : Type} (e : exn) : M A := fun s => (Uncaught e, s).

Definition lift {A : Type} (r : res A) : M A :=
  match r with
  | Ok a => ret a
  | Err e => raise e
  end.

(** [try: body  except Exception as e: handler e].  [st.stop()] is not an
    [Exception] and passes through. *)
Definition try_except {A : Type} (body : M A) (handler : exn -> M A) : M A :=
  fun s =>
    match body s with
    | (Uncaught e, s') => handler e s'
    | r => r
    end.

Definition when (b : bool) (m : M unit) : M unit :=
  if b then m else ret tt.

Fixpoint for_each {A : Type} (xs : list A) (body : A -> M unit) : M unit :=
  match xs with
  | [] => ret tt
  | x :: xs' => body x ;; for_each xs' body
  end.

(** [for i, x in enumerate(xs, start)] *)
Fixpoint for_each_enumerate {A : Type} (xs : list A) (start : nat)
    (body : nat -> A -> M unit) : M unit :=
  match xs with
  | [] => ret tt
  | x :: xs' => body start x ;; for_each_enumerate xs' (S start) body
  end.

(** [str(i)] for a non-negative integer. *)
Definition str_nat (i : nat) : string := NilZero.string_of_uint (Nat.to_uint i).

(** A run of a script from a stored history. *)
Definition run {A : Type} (m : M A) (history : list Turn) : Outcome A * Script :=
  m {| messages := history; ui := [] |}.

Definition history_after {A : Type} (r : Outcome A * Script) : list Turn :=
  messages (snd r).

Definition trace {A : Type} (r : Outcome A * Script) : list Event :=
  ui (snd r).

(** * The local variant: [local_web_search.py] *)

(** The sidebar (key input, model discovery through [ollama.list()], model
    select box, status lines) is not part of the pipeline: its two widget
    values, [tavily_key] and [selected_model], are inputs of [main]. *)

Module Local.

(** One entry of the Tavily response's ['results']: a dictionary whose
    values the SDK delivers as strings. *)
Definition Result : Type := list (string * string).

(** The response dictionary, read only through [response.get('results', [])]. *)
Record TavilyResponse : Type := mkResponse {
  results : option (list Result)
}.

(** A streamed chunk, read only through [chunk['message']['content']]. *)
Record Chunk : Type := mkChunk {
  message_content : string
}.

(** The generator returned by [ollama.chat(..., stream=True)]: it yields
    [chunks] in order and then either ends or raises [failure]. *)
Record Stream : Type := mkStream {
  chunks : list Chunk;
  failure : option exn
}.

(** What the outside world answers to the two outbound calls. *)
Record World : Type := mkWorld {
  tavily : string -> string -> res TavilyResponse;          (* key, query *)
  ollama : string -> list (string * string) -> Stream       (* model, messages *)
}.

(** [result[k]] *)
Definition result_getitem (result : Result) (k : string) : res string :=
  match dict_get result k with
  | Some v => Ok v
  | None => Err (KeyError (repr_key k))
  end.

Definition system_prompt : string :=
  "
    You are a Senior Financial Analyst. 
    You have been provided with raw search results from the web (Context).
    
    Your Job:
    1. Synthesize the search results to answer the user's question.
    2. Focus on hard numbers: Revenue, Margins, Growth Rates, Guidance.
    3. Be skeptical: If sources conflict, note the discrepancy.
    4. Format: Use Markdown tables for data. Keep text concise.
    
    DISCLAIMER: Do not make up facts. If the answer is not in the Context, state that.
    ".

Definition final_prompt_head : string :=
  "
    ### CONTEXT FROM WEB SEARCH:
    ".

Definition final_prompt_mid : string :=
  "
    
    ### USER QUESTION:
    ".

Definition final_prompt_tail : string :=
  "
    
    ### YOUR ANALYSIS:
    ".


Definition cursor : string := "▌".

Local Open Scope res_scope.

(** The f-string appended to [context_text] for one result. *)
Definition context_block (result : Result) : res string :=
  let? title := result_getitem result "title" in
  let? url := result_getitem result "url" in
  let? body := result_getitem result "content" in
  Ok (nl ++ "---" ++ nl ++ "Title: " ++ title ++ nl ++ "URL: " ++ url ++ nl
      ++ "Content: " ++ body ++ nl).

(** The f-string appended to [citations] for one result. *)
Definition citation_ref (result : Result) : res string :=
  let? title := result_getitem result "title" in
  let? url := result_getitem result "url" in
  Ok ("[" ++ title ++ "](" ++ url ++ ")").

(** The [for result in ...] loop of [search_web], threading its two locals. *)
Fixpoint format_results (rs : list Result) (context_text : string)
    (citations : list string) : res (string * list string) :=
  match rs with
  | [] => Ok (context_text, citations)
  | result :: rs' =>
      let? block := context_block result in
      let context_text := context_text ++ block in
      let? ref := citation_ref result in
      let citations := (citations ++ [ref])%list in
      format_results rs' context_text citations
  end.

(** [response.get('results', [])] *)
Definition get_results (response : TavilyResponse) : list Result :=
  match results response with
  | Some rs => rs
  | None => []
  end.

Section Script.

Variable world : World.

(** [TavilyClient(api_key=key).search(query=query, search_depth="advanced",
    max_results=5, include_domains=[])] *)
Definition tavily_call (key query : string) : M TavilyResponse :=
  emit (tavily_search key query) ;;
  lift (tavily world key query).

Definition search_web (query key : string) : M (option string * list string) :=
  try_except
    (response <- tavily_call key query ;;
     ' (context_text, citations) <-
        lift (format_results (get_results response) "" []) ;;
     ret (Some context_text, citations))
    (fun e => ret (None, ["Search Error: " ++ str_exn e])).

Definition analyst_messages (query search_context : string)
  : list (string * string) :=
  let final_prompt :=
    final_prompt_head ++ search_context ++ final_prompt_mid ++ query
    ++ final_prompt_tail in
  [("system", system_prompt); ("user", final_prompt)].

Definition run_local_analyst (query search_context model : string) : M Stream :=
  let msgs := analyst_messages query search_context in
  emit (ollama_chat model msgs) ;;
  ret (ollama world model msgs).

(** The display loop over the stored history. *)
Definition display_message (msg : Turn) : M unit :=
  emit (st_chat_message (role msg)) ;;
  emit (st_markdown (content msg)) ;;
  when (has_citations msg)
    (emit (st_expander "📚 Sources") ;;
     cs <- lift (match citations msg with
                 | Some c => py_iter c
                 | None => Ok []
                 end) ;;
     for_each cs (fun c => emit (st_markdown_f "- " c))).

Definition display_history : M unit :=
  msgs <- get_messages ;;
  for_each msgs display_message.

(** The [for chunk in stream] loop, threading [full_response]. *)
Fixpoint drain (cs : list Chunk) (full_response : string) : M string :=
  match cs with
  | [] => ret full_response
  | chunk :: cs' =>
      let piece := message_content chunk in
      let full_response := full_response ++ piece in
      emit (placeholder_markdown (VStr (full_response ++ cursor))) ;;
      drain cs' full_response
  end.

Definition consume (stream : Stream) (full_response : string) : M string :=
  full_response <- drain (chunks stream) full_response ;;
  match failure stream with
  | Some e => raise e
  | None => ret full_response
  end.

(** The [if not context:] branch. *)
Definition search_failed {A : Type} : M A :=
  emit (status_update "❌ Search Failed" "error") ;;
  emit (st_error "Could not retrieve search results.") ;;
  st_stop.

(** The body of [if prompt := st.chat_input(...)]. *)
Definition on_prompt (tavily_key selected_model prompt : string) : M unit :=
  (if negb (str_truthy tavily_key)
   then emit (st_error "Please enter your Tavily API Key in the sidebar.") ;;
        st_stop
   else ret tt) ;;
  messages_append (user_turn prompt) ;;
  emit (st_chat_message "user") ;;
  emit (st_markdown (VStr prompt)) ;;
  emit (st_chat_message "assistant") ;;
  emit (st_status "🕵️ Agent Working...") ;;
  emit (status_write "Searching the web (Tavily)...") ;;
  ' (context, citations) <- search_web prompt tavily_key ;;
  context <- (match context with
              | Some c => if str_truthy c then ret c else search_failed
              | None => search_failed
              end) ;;
  emit (status_write "Context retrieved. Analyzing with local Qwen model...") ;;
  emit st_empty ;;
  let full_response := "" in
  stream <- run_local_analyst prompt context selected_model ;;
  full_response <- consume stream full_response ;;
  emit (placeholder_markdown (VStr full_response)) ;;
  emit (status_update "✅ Analysis Complete" "complete") ;;
  when (match citations with [] => false | _ :: _ => true end)
    (emit (st_expander "📚 Sources Used") ;;
     for_each citations (fun c => emit (st_markdown_f "- " (VStr c)))) ;;
  messages_append
    (assistant_turn (VStr full_response) (VList (map VStr citations))).

(** The script from its main interface on.  [tavily_key] and
    [selected_model] are the sidebar's widget values; [chat_input] is [None]
    when the run was not triggered by a submitted prompt. *)
Definition main (tavily_key selected_model : string)
    (chat_input : option string) : M unit :=
  display_history ;;
  match chat_input with
  | Some prompt =>
      if str_truthy prompt
      then on_prompt tavily_key selected_model prompt
      else ret tt
  | None => ret tt
  end.

End Script.

End Local.

(** * The remote variant: [web_search_agent.py] *)

Module Remote.

Definition API_URL : string := "https://api.perplexity.ai/chat/completions".

(** The object returned by [requests.post], read only through its two
    methods: what [raise_for_status()] does and what [json()] does. *)
Record Response : Type := mkResponse {
  raise_for_status : res unit;
  json : res value
}.

(** What the endpoint answers to a request (url, headers, JSON body). *)
Record World : Type := mkWorld {
  post : string -> list (string * string) -> value -> res Response
}.

(** The options of the sidebar's model select box. *)
Inductive Model : Type := sonar | sonar_reasoning.

Definition model_name (m : Model) : string :=
  match m with
  | sonar => "sonar"
  | sonar_reasoning => "sonar-reasoning"
  end.

Definition system_instruction : string :=
  "
            You are a Senior Equity Research Associate assisting a Portfolio Manager. 
            Your goal is to provide high-precision fundamental analysis based on real-time web search.

            ### EXECUTION GUIDELINES:
            1. **Sources**: STRICTLY prioritize official Investor Relations (IR), SEC/Regulatory filings (10-K/10-Q), and Tier-1 financial news (Bloomberg, Reuters, FT, WSJ). Ignore generic blogs.
            2. **Format**: Minimize text. Use Markdown tables for financial data. 
            3. **Tone**: Objective, professional, and direct. No conversational filler (e.g., "
  ++ dquote ++
  "Here is what I found"
  ++ dquote ++
  ").

            ### OUTPUT STRUCTURE:
            - **Executive Summary**: High-level thesis/status (max 50 words).
            - **Key Fundamentals**: Markdown table (Required for: Revenue, EBITDA, Margins, EPS, YoY growth).
            - **Corporate Developments**: Strategic updates, M&A, or leadership changes.
            - **Risks/Catalysts**: Bullet points only.
            ".

Section Script.

Variable world : World.

Definition request_headers (key : string) : list (string * string) :=
  [("Authorization", "Bearer " ++ key); ("Content-Type", "application/json")].

Definition request_payload (messages : list value) (model_name : string) : value :=
  VDict [("model", VStr model_name);
         ("messages", VList messages);
         ("return_citations", VBool true)].

Definition requests_post_call (headers : list (string * string))
    (payload : value) : M Response :=
  emit (requests_post API_URL headers payload) ;;
  lift (post world API_URL headers payload).

Definition query_perplexity (messages : list value) (key model_name : string)
  : M value :=
  let headers := request_headers key in
  let payload := request_payload messages model_name in
  try_except
    (response <- requests_post_call headers payload ;;
     lift (raise_for_status response) ;;
     lift (json response))
    (fun e => ret (VDict [("error", VStr (str_exn e))])).

(** The display loop over the stored history. *)
Definition display_message (msg : Turn) : M unit :=
  emit (st_chat_message (role msg)) ;;
  emit (st_markdown (content msg)) ;;
  when (has_citations msg)
    (emit (st_expander "📚 Verified Sources") ;;
     cs <- lift (match citations msg with
                 | Some c => py_iter c
                 | None => Ok []
                 end) ;;
     for_each_enumerate cs 1
       (fun i citation => emit (st_markdown_f (str_nat i ++ ". ") citation))).

Definition display_history : M unit :=
  msgs <- get_messages ;;
  for_each msgs display_message.

(** One element of the [api_messages] comprehension. *)
Definition api_message (m : Turn) : value :=
  VDict [("role", VStr (role m)); ("content", content m)].

Definition system_message : value :=
  VDict [("role", VStr "system"); ("content", VStr system_instruction)].

(** The [else] branch: the answer and its citations are read off [result]. *)
Definition read_answer (result : value) : M (value * value) :=
  choices <- lift (getitem result "choices") ;;
  choice <- lift (getitem0 choices) ;;
  message <- lift (getitem choice "message") ;;
  full_response <- lift (getitem message "content") ;;
  citations <- lift (py_get result "citations" (VList [])) ;;
  emit (placeholder_markdown full_response) ;;
  when (truthy citations)
    (emit (st_expander "📚 Verified Sources") ;;
     cs <- lift (py_iter citations) ;;
     for_each_enumerate cs 1
       (fun i citation =>
          emit (st_markdown_f ("[" ++ str_nat i ++ "] ") citation))) ;;
  ret (full_response, citations).

(** The body of [if prompt := st.chat_input(...)]. *)
Definition on_prompt (api_key : string) (model : Model) (prompt : string)
  : M unit :=
  (if negb (str_truthy api_key)
   then emit (st_error "⚠️ Please enter your API Key in the sidebar to proceed.") ;;
        st_stop
   else ret tt) ;;
  messages_append (user_turn prompt) ;;
  emit (st_chat_message "user") ;;
  emit (st_markdown (VStr prompt)) ;;
  emit (st_chat_message "assistant") ;;
  emit st_empty ;;
  let full_response := VStr "" in
  let citations := VList [] in
  emit (st_spinner "Analyzing web data...") ;;
  msgs <- get_messages ;;
  let api_messages := map api_message msgs in
  let api_messages := system_message :: api_messages in
  result <- query_perplexity api_messages api_key (model_name model) ;;
  has_error <- lift (py_contains "error" result) ;;
  ' (full_response, citations) <-
     (if has_error : bool
      then err <- lift (getitem result "error") ;;
           emit (st_error_f "API Error: " err) ;;
           ret (full_response, citations)
      else read_answer result) ;;
  messages_append (assistant_turn full_response citations).

(** The script.  [api_key] and [model] are the sidebar's widget values,
    [clear_pressed] is the "Clear Research History" button and [chat_input]
    is [None] when the run was not triggered by a submitted prompt.
    [st.rerun()] restarts the script with no widget triggered, which
    displays the history again and ends. *)
Definition main (api_key : string) (model : Model) (clear_pressed : bool)
    (chat_input : option string) : M unit :=
  if clear_pressed
  then messages_clear ;; display_history
  else
    display_history ;;
    match chat_input with
    | Some prompt =>
        if str_truthy prompt
        then on_prompt api_key model prompt
        else ret tt
    | None => ret tt
    end.

End Script.

End Remote.

(** * Vocabulary of the statements *)

(** The concatenation C1 + ... + Cn of a sequence of strings. *)
Definition concatenation (cs : list string) : string :=
  fold_right String.append "" cs.

(** The events that render something and neither report an error nor
    leave the process. *)
Definition is_render (e : Event) : bool :=
  match e with
  | st_chat_message _ | st_markdown _ | st_markdown_f _ _ | st_expander _
  | placeholder_markdown _ => true
  | _ => false
  end.

(** [quiet m]: whatever [m] does, the history is untouched and only
    rendering events are added. *)
Definition quiet {A : Type} (m : M A) : Prop :=
  forall s, exists evs,
    forallb is_render evs = true /\
    snd (m s) = {| messages := messages s; ui := ui s ++ evs |}.

(** A stored entry is displayable when the display loop can iterate over
    its citations, should it have to. *)
Definition displayable (msg : Turn) : bool :=
  match citations msg with
  | Some c =>
      if truthy c
      then match py_iter c with Ok _ => true | Err _ => false end
      else true
  | None => true
  end.

(** What [search_web] hands back, read off the oracle's answer. *)
Definition search_outcome (w : Local.World) (query key : string)
  : option string * list string :=
  match Local.tavily w key query with
  | Ok response =>
      match Local.format_results (Local.get_results response) "" [] with
      | Ok (context_text, refs) => (Some context_text, refs)
      | Err e => (None, ["Search Error: " ++ str_exn e])
      end
  | Err e => (None, ["Search Error: " ++ str_exn e])
  end.

(** The partial answers shown while a stream is drained. *)
Fixpoint partial_renders (acc : string) (cs : list Local.Chunk) : list Event :=
  match cs with
  | [] => []
  | c :: cs' =>
      placeholder_markdown (VStr ((acc ++ Local.message_content c) ++ Local.cursor))
      :: partial_renders (acc ++ Local.message_content c) cs'
  end.

(** What a local run shows between the user's prompt and the search. *)
Definition local_preamble (key prompt : string) : list Event :=
  [st_chat_message "user"; st_markdown (VStr prompt);
   st_chat_message "assistant"; st_status "🕵️ Agent Working...";
   status_write "Searching the web (Tavily)..."; tavily_search key prompt].

Definition local_search_failed : list Event :=
  [status_update "❌ Search Failed" "error";
   st_error "Could not retrieve search results."].

Definition local_sources (refs : list string) : list Event :=
  match refs with
  | [] => []
  | _ :: _ =>
      st_expander "📚 Sources Used"
      :: map (fun c => st_markdown_f "- " (VStr c)) refs
  end.

(** The dictionary [query_perplexity] builds from a caught exception. *)
Definition error_object (e : exn) : value :=
  VDict [("error", VStr (str_exn e))].

(** What [query_perplexity] hands back, read off the oracle's answer. *)
Definition query_outcome (w : Remote.World) (msgs : list value)
    (key model_name : string) : value :=
  match Remote.post w Remote.API_URL (Remote.request_headers key)
          (Remote.request_payload msgs model_name) with
  | Ok response =>
      match Remote.raise_for_status response with
      | Ok _ =>
          match Remote.json response with
          | Ok parsed => parsed
          | Err e => error_object e
          end
      | Err e => error_object e
      end
  | Err e => error_object e
  end.

(** [result['choices'][0]['message']['content']] *)
Definition answer_content (result : value) : res value :=
  (let? choices := getitem result "choices" in
   let? choice := getitem0 choices in
   let? message := getitem choice "message" in
   getitem message "content")%res.

(** What a remote run shows between the user's prompt and the request. *)
Definition remote_preamble (prompt : string) : list Event :=
  [st_chat_message "user"; st_markdown (VStr prompt);
   st_chat_message "assistant"; st_empty;
   st_spinner "Analyzing web data..."].

(** The messages of the request sent for [prompt] on top of history [h]. *)
Definition request_messages (h : list Turn) (prompt : string) : list value :=
  Remote.system_message :: map Remote.api_message (h ++ [user_turn prompt]).

(** A search result as the data model has it: the three fields are there. *)
Definition has_fields (result : Local.Result) : bool :=
  dict_mem result "title" && dict_mem result "url" && dict_mem result "content".

(** [ref] is the reference of [result]: its title as link label, its URL
    as link target. *)
Definition cites (result : Local.Result) (ref : string) : Prop :=
  exists title url,
    dict_get result "title" = Some title /\
    dict_get result "url" = Some url /\
    ref = "[" ++ title ++ "](" ++ url ++ ")".

(** The histories a session can hold: it starts empty and every
    interaction re-runs the script on what the previous run left. *)
Inductive local_reachable : list Turn -> Prop :=
| local_start : local_reachable []
| local_rerun (h : list Turn) (w : Local.World) (key model : string)
    (chat_input : option string) :
    local_reachable h ->
    local_reachable (history_after (run (Local.main w key model chat_input) h)).

Inductive remote_reachable : list Turn -> Prop :=
| remote_start : remote_reachable []
| remote_rerun (h : list Turn) (w : Remote.World) (key : string)
    (model : Remote.Model) (clear_pressed : bool) (chat_input : option string) :
    remote_reachable h ->
    remote_reachable
      (history_after (run (Remote.main w key model clear_pressed chat_input) h)).

(** ** Example inputs *)

Definition result_1 : Local.Result :=
  [("title", "Test Co Q1"); ("url", "https://example.com/q1");
   ("content", "Revenue rose 10%.")].

Definition result_2 : Local.Result :=
  [("url", "https://example.com/pr"); ("title", "Press release");
   ("content", "Guidance unchanged."); ("score", "0.9")].

Definition three_chunks : Local.Stream :=
  {| Local.chunks := [Local.mkChunk "Rev"; Local.mkChunk "enue up";
                      Local.mkChunk " 10%."];
     Local.failure := None |}.

(** Tavily finds two results; the model streams three chunks. *)
Definition two_results_world : Local.World :=
  {| Local.tavily := fun _ _ => Ok {| Local.results := Some [result_1; result_2] |};
     Local.ollama := fun _ _ => three_chunks |}.

(** Tavily answers, with no result at all. *)
Definition zero_results_world : Local.World :=
  {| Local.tavily := fun _ _ => Ok {| Local.results := Some [] |};
     Local.ollama := fun _ _ => three_chunks |}.

(** The Tavily call raises. *)
Definition tavily_down_world : Local.World :=
  {| Local.tavily := fun _ _ => Err (LibraryError "connection refused");
     Local.ollama := fun _ _ => three_chunks |}.

Definition earlier_history : list Turn :=
  [user_turn "Google Q4 2025 earnings analysis";
   assistant_turn (VStr "Revenue grew.") (VList [VStr "[Alphabet IR](https://abc.xyz)"])].

(** The endpoint refuses the request: [raise_for_status()] raises. *)
Definition rate_limited_world : Remote.World :=
  {| Remote.post := fun _ _ _ =>
       Ok {| Remote.raise_for_status := Err (LibraryError "rate limited");
             Remote.json := Ok (VDict []) |} |}.

Definition completion : value :=
  VDict [("choices",
          VList [VDict [("message",
                         VDict [("role", VStr "assistant");
                                ("content", VStr "Margins held.")])]]);
         ("citations", VList [VStr "https://example.com/10k"])].

(** The endpoint answers with a completion and one citation. *)
Definition answering_world : Remote.World :=
  {| Remote.post := fun _ _ _ =>
       Ok {| Remote.raise_for_status := Ok tt;
             Remote.json := Ok completion |} |}.

(** [earlier_history] with other citations on its assistant turn. *)
Definition earlier_history_recited : list Turn :=
  [user_turn "Google Q4 2025 earnings analysis";
   assistant_turn (VStr "Revenue grew.")
     (VList [VStr "https://sec.gov/a"; VStr "https://sec.gov/b"])].

(** * The local sidebar's model discovery *)

Module Sidebar.

(** The list comprehension [[m['model'] for m in ...]]: the first element
    without the key ends it. *)
Fixpoint model_fields (ms : list value) : res (list value) :=
  match ms with
  | [] => Ok []
  | m :: ms' =>
      (let? name := getitem m "model" in
       let? names := model_fields ms' in
       Ok (name :: names))%res
  end.

(** The body of the [try]: [listing] is what [ollama.list()] does. *)
Definition list_models (listing : res value) : res (list value) :=
  (let? models_info := listing in
   let? models := getitem models_info "models" in
   let? ms := py_iter models in
   model_fields ms)%res.

(** [model_names] after the [try]/[except], and whether the warning
    "Could not connect to Ollama" was shown. *)
Definition model_names (listing : res value) : list value * bool :=
  match list_models listing with
  | Ok names => (names, false)
  | Err _ => ([VStr "qwen2.5:7b"], true)
  end.

(** [x == "qwen2.5:7b"] *)
Definition is_qwen (v : value) : bool :=
  match v with
  | VStr s => String.eqb s "qwen2.5:7b"
  | _ => false
  end.

(** ["qwen2.5:7b" in model_names] *)
Definition qwen_listed (names : list value) : bool := existsb is_qwen names.

(** [model_names.index("qwen2.5:7b")], which raises [ValueError] when the
    name is not in the list. *)
Fixpoint index_qwen (names : list value) : res nat :=
  match names with
  | [] => Err (LibraryError "'qwen2.5:7b' is not in list")
  | v :: names' =>
      if is_qwen v then Ok 0
      else (let? i := index_qwen names' in Ok (S i))%res
  end.

(** The [index=] argument of the model select box. *)
Definition default_index (names : list value) : res nat :=
  if qwen_listed names then index_qwen names else Ok 0.

End Sidebar.

(** * Further vocabulary *)

(** [block] is the text the formatter writes for [result]. *)
Definition renders_block (result : Local.Result) (block : string) : Prop :=
  exists title url body,
    dict_get result "title" = Some title /\
    dict_get result "url" = Some url /\
    dict_get result "content" = Some body /\
    block = nl ++ "---" ++ nl ++ "Title: " ++ title ++ nl ++ "URL: " ++ url
            ++ nl ++ "Content: " ++ body ++ nl.

(** The first of the three fields a result lacks, in the order the
    formatter reads them. *)
Definition missing_field (result : Local.Result) : option string :=
  if negb (dict_mem result "title") then Some "title"
  else if negb (dict_mem result "url") then Some "url"
  else if negb (dict_mem result "content") then Some "content"
  else None.

(** The first missing field of the first result that lacks one. *)
Fixpoint first_missing_field (rs : list Local.Result) : option string :=
  match rs with
  | [] => None
  | result :: rs' =>
      match missing_field result with
      | Some k => Some k
      | None => first_missing_field rs'
      end
  end.

(** The shape of a stored conversation: exchanges in order, each the
    user's turn alone or followed by the assistant turn answering it.
    [ok] says which assistant turns are allowed. *)
Inductive exchanges (ok : value -> value -> Prop) : list Turn -> Prop :=
| exchanges_nil : exchanges ok []
| exchanges_asked (h : list Turn) (prompt : string) :
    exchanges ok h -> exchanges ok (h ++ [user_turn prompt])
| exchanges_answered (h : list Turn) (prompt : string) (answer cites : value) :
    exchanges ok h -> ok answer cites ->
    exchanges ok (h ++ [user_turn prompt; assistant_turn answer cites]).

(** A local assistant turn: a text with a non-empty list of references. *)
Definition local_answer (answer cites : value) : Prop :=
  exists text ref refs,
    answer = VStr text /\ cites = VList (map VStr (ref :: refs)).

(** A remote assistant turn: any content, citations the display can show. *)
Definition remote_answer (answer cites : value) : Prop :=
  displayable (assistant_turn answer cites) = true.

Definition is_chat_message (e : Event) : bool :=
  match e with
  | st_chat_message _ => true
  | _ => false
  end.

Definition is_expander (e : Event) : bool :=
  match e with
  | st_expander _ => true
  | _ => false
  end.

(** A request message with the given role. *)
Definition has_role (r : string) (m : value) : Prop :=
  exists c, m = VDict [("role", VStr r); ("content", c)].

(** The calls the local model would receive for this prompt: none unless
    the search came back with a non-empty context. *)
Definition generation_calls (w : Local.World) (key model prompt : string)
  : list Event :=
  match search_outcome w prompt key with
  | (Some c, _) =>
      if str_truthy c
      then [ollama_chat model (Local.analyst_messages prompt c)]
      else []
  | (None, _) => []
  end.

(** A stream that breaks after two chunks. *)
Definition broken_stream : Local.Stream :=
  {| Local.chunks := [Local.mkChunk "Rev"; Local.mkChunk "enue"];
     Local.failure := Some (LibraryError "connection reset") |}.

(** Tavily finds two results; the model's stream breaks. *)
Definition broken_stream_world : Local.World :=
  {| Local.tavily := fun _ _ => Ok {| Local.results := Some [result_1; result_2] |};
     Local.ollama := fun _ _ => broken_stream |}.

(** The endpoint answers 200 with a body that holds neither an error nor
    choices. *)
Definition empty_body_world : Remote.World :=
  {| Remote.post := fun _ _ _ =>
       Ok {| Remote.raise_for_status := Ok tt;
             Remote.json := Ok (VDict [("id", VStr "abc")]) |} |}.

(** What [ollama.list()] returns for two installed models. *)
Definition two_models : value :=
  VDict [("models",
          VList [VDict [("model", VStr "llama3:8b"); ("size", VInt 4)];
                 VDict [("model", VStr "qwen2.5:7b"); ("size", VInt 5)]])].

(** * Properties of the embedding *)

(** ** Strings *)

Lemma append_assoc (a b c : string) : (a ++ b) ++ c = a ++ (b ++ c).
Proof.
  induction a as [|x a IH]; simpl; [reflexivity | now rewrite IH].
Qed.

Lemma append_nil_r (s : string) : s ++ "" = s.
Proof.
  induction s as [|x s IH]; simpl; [reflexivity | now rewrite IH].
Qed.

Lemma str_truthy_true (s : string) : str_truthy s = true <-> s <> "".
Proof.
  unfold str_truthy. destruct (String.eqb_spec s ""); simpl; split; congruence.
Qed.

Lemma str_truthy_false (s : string) : str_truthy s = false <-> s = "".
Proof.
  unfold str_truthy. destruct (String.eqb_spec s ""); simpl; split; congruence.
Qed.

(** ** Runs that only draw on the page *)

Lemma render_not_network (evs : list Event) :
  forallb is_render evs = true -> existsb is_network evs = false.
Proof.
  induction evs as [|e evs IH]; simpl; [reflexivity|].
  intros H. apply andb_prop in H. destruct H as [He Hevs].
  rewrite (IH Hevs). destruct e; simpl in *; congruence.
Qed.

Lemma render_not_error (evs : list Event) :
  forallb is_render evs = true -> existsb is_error evs = false.
Proof.
  induction evs as [|e evs IH]; simpl; [reflexivity|].
  intros H. apply andb_prop in H. destruct H as [He Hevs].
  rewrite (IH Hevs). destruct e; simpl in *; congruence.
Qed.

Lemma render_not_generation (evs : list Event) :
  forallb is_render evs = true -> existsb is_generation evs = false.
Proof.
  induction evs as [|x evs IH]; simpl; [reflexivity|].
  intros H. apply andb_prop in H. destruct H as [Hx Hevs].
  rewrite (IH Hevs). destruct x; simpl in *; congruence.
Qed.

Lemma existsb_app_false {A : Type} (f : A -> bool) (l1 l2 : list A) :
  existsb f l1 = false -> existsb f l2 = false -> existsb f (l1 ++ l2) = false.
Proof. intros H1 H2. now rewrite existsb_app, H1, H2. Qed.

Lemma script_eta (s : Script) : {| messages := messages s; ui := ui s ++ [] |} = s.
Proof. destruct s; simpl. now rewrite app_nil_r. Qed.

Lemma quiet_ret {A : Type} (a : A) : quiet (ret a).
Proof. intros s. exists []. simpl. now rewrite script_eta. Qed.

Lemma quiet_raise {A : Type} (e : exn) : quiet (@raise A e).
Proof. intros s. exists []. simpl. now rewrite script_eta. Qed.

Lemma quiet_lift {A : Type} (r : res A) : quiet (lift r).
Proof. destruct r; [apply quiet_ret | apply quiet_raise]. Qed.

Lemma quiet_get_messages : quiet get_messages.
Proof. intros s. exists []. simpl. now rewrite script_eta. Qed.

Lemma quiet_emit (e : Event) : is_render e = true -> quiet (emit e).
Proof. intros He s. exists [e]. simpl. now rewrite He. Qed.

Lemma quiet_bind {A B : Type} (m : M A) (k : A -> M B) :
  quiet m -> (forall a, quiet (k a)) -> quiet (bind m k).
Proof.
  intros Hm Hk s. unfold bind.
  destruct (Hm s) as (evs & Hevs & Hs).
  destruct (m s) as [[a| |e] s1]; simpl in Hs; subst s1;
    try (exists evs; now split).
  destruct (Hk a {| messages := messages s; ui := ui s ++ evs |})
    as (evs' & Hevs' & Hs').
  exists (evs ++ evs')%list. split.
  - rewrite forallb_app, Hevs, Hevs'. reflexivity.
  - rewrite Hs'. simpl. now rewrite app_assoc.
Qed.

Lemma quiet_when (b : bool) (m : M unit) : quiet m -> quiet (when b m).
Proof. destruct b; simpl; [trivial | intros _; apply quiet_ret]. Qed.

Lemma quiet_for_each {A : Type} (xs : list A) (body : A -> M unit) :
  (forall x, quiet (body x)) -> quiet (for_each xs body).
Proof.
  intros Hb. induction xs as [|x xs IH]; simpl.
  - apply quiet_ret.
  - apply quiet_bind; [apply Hb | intros _; exact IH].
Qed.

Lemma quiet_for_each_enumerate {A : Type} (xs : list A) (start : nat)
    (body : nat -> A -> M unit) :
  (forall i x, quiet (body i x)) -> quiet (for_each_enumerate xs start body).
Proof.
  intros Hb. revert start. induction xs as [|x xs IH]; intros start; simpl.
  - apply quiet_ret.
  - apply quiet_bind; [apply Hb | intros _; apply IH].
Qed.

Create HintDb quiet.
#[export] Hint Resolve quiet_ret quiet_raise quiet_lift quiet_get_messages
  quiet_when quiet_for_each quiet_for_each_enumerate : quiet.
#[export] Hint Extern 1 (quiet (emit _)) => (apply quiet_emit; reflexivity) : quiet.
#[export] Hint Extern 2 (quiet (bind _ _)) => (apply quiet_bind; [| intros ?]) : quiet.

(** Completed loops. *)
Lemma for_each_done {A : Type} (xs : list A) (body : A -> M unit) :
  (forall x s, In x xs -> fst (body x s) = Done tt) ->
  forall s, fst (for_each xs body s) = Done tt.
Proof.
  induction xs as [|x xs IH]; intros Hb s; simpl; [reflexivity|].
  unfold bind. pose proof (Hb x s (or_introl eq_refl)) as Hx.
  destruct (body x s) as [[[]| |e] s1]; simpl in Hx; try discriminate.
  apply IH. intros y s' Hy. apply Hb. now right.
Qed.

Lemma for_each_enumerate_done {A : Type} (xs : list A) (start : nat)
    (body : nat -> A -> M unit) :
  (forall i x s, fst (body i x s) = Done tt) ->
  forall s, fst (for_each_enumerate xs start body s) = Done tt.
Proof.
  intros Hb. revert start.
  induction xs as [|x xs IH]; intros start s; simpl; [reflexivity|].
  unfold bind. pose proof (Hb start x s) as Hx.
  destruct (body start x s) as [[[]| |e] s1]; simpl in Hx; try discriminate.
  apply IH.
Qed.

(** A quiet computation never ends by [st.stop()] when it is known to end
    by [Done]; this packs both facts. *)
Lemma quiet_done {A : Type} (m : M A) (s : Script) (a : A) :
  quiet m -> fst (m s) = Done a ->
  exists evs, forallb is_render evs = true /\
    m s = (Done a, {| messages := messages s; ui := ui s ++ evs |}).
Proof.
  intros Hq Hd. destruct (Hq s) as (evs & Hevs & Hs).
  exists evs. split; [exact Hevs|].
  destruct (m s) as [o s1]; simpl in *. now subst.
Qed.

(** ** The local script, step by step *)

Section LocalRuns.

Variable world : Local.World.

Lemma local_search_web_run (query key : string) (s : Script) :
  Local.search_web world query key s =
  (Done (search_outcome world query key),
   {| messages := messages s; ui := ui s ++ [tavily_search key query] |}).
Proof.
  unfold Local.search_web, search_outcome, try_except, Local.tavily_call,
    bind, emit, lift.
  destruct (Local.tavily world key query) as [response|e]; simpl; [|reflexivity].
  destruct (Local.format_results (Local.get_results response) "" [])
    as [[context_text refs]|e]; reflexivity.
Qed.

Lemma local_drain_run (cs : list Local.Chunk) :
  forall (acc : string) (s : Script),
    Local.drain cs acc s =
    (Done (acc ++ concatenation (map Local.message_content cs)),
     {| messages := messages s; ui := ui s ++ partial_renders acc cs |}).
Proof.
  induction cs as [|c cs IH]; intros acc s; simpl.
  - rewrite append_nil_r, script_eta. reflexivity.
  - unfold bind, emit. rewrite IH. simpl.
    rewrite append_assoc, <- app_assoc. reflexivity.
Qed.

Lemma for_each_emit {A : Type} (f : A -> Event) (xs : list A) (s : Script) :
  for_each xs (fun x => emit (f x)) s =
  (Done tt, {| messages := messages s; ui := ui s ++ map f xs |}).
Proof.
  revert s. induction xs as [|x xs IH]; intros s; simpl.
  - now rewrite script_eta.
  - unfold bind, emit. rewrite IH. simpl. now rewrite <- app_assoc.
Qed.

Lemma local_on_prompt_no_key (key model prompt : string) (s : Script) :
  str_truthy key = false ->
  Local.on_prompt world key model prompt s =
  (Stopped,
   {| messages := messages s;
      ui := ui s ++ [st_error "Please enter your Tavily API Key in the sidebar."] |}).
Proof.
  intros Hk. unfold Local.on_prompt. rewrite Hk. reflexivity.
Qed.

Lemma local_on_prompt_search_failed (key model prompt : string) (s : Script) :
  str_truthy key = true ->
  opt_str_falsy (fst (search_outcome world prompt key)) = true ->
  Local.on_prompt world key model prompt s =
  (Stopped,
   {| messages := messages s ++ [user_turn prompt];
      ui := ui s ++ local_preamble key prompt ++ local_search_failed |}).
Proof.
  intros Hk Hc. unfold Local.on_prompt. rewrite Hk.
  unfold bind, emit, messages_append, ret. cbn [negb messages ui].
  rewrite local_search_web_run. cbn [messages ui].
  unfold local_preamble, local_search_failed.
  destruct (search_outcome world prompt key) as [[c|] refs]; simpl in Hc.
  - destruct (str_truthy c); [discriminate|].
    unfold Local.search_failed, bind, emit, st_stop. simpl.
    rewrite <- !app_assoc. reflexivity.
  - unfold Local.search_failed, bind, emit, st_stop. simpl.
    rewrite <- !app_assoc. reflexivity.
Qed.

Lemma local_run_analyst_run (query context model : string) (s : Script) :
  Local.run_local_analyst world query context model s =
  (Done (Local.ollama world model (Local.analyst_messages query context)),
   {| messages := messages s;
      ui := ui s ++ [ollama_chat model (Local.analyst_messages query context)] |}).
Proof. reflexivity. Qed.

Lemma local_on_prompt_answered (key model prompt c : string)
    (refs : list string) (s : Script) :
  str_truthy key = true ->
  search_outcome world prompt key = (Some c, refs) ->
  str_truthy c = true ->
  let stream := Local.ollama world model (Local.analyst_messages prompt c) in
  let answer := concatenation (map Local.message_content (Local.chunks stream)) in
  Local.failure stream = None ->
  Local.on_prompt world key model prompt s =
  (Done tt,
   {| messages := messages s ++
        [user_turn prompt;
         assistant_turn (VStr answer) (VList (map VStr refs))];
      ui := ui s ++ local_preamble key prompt ++
        [status_write "Context retrieved. Analyzing with local Qwen model...";
         st_empty;
         ollama_chat model (Local.analyst_messages prompt c)] ++
        partial_renders "" (Local.chunks stream) ++
        [placeholder_markdown (VStr answer);
         status_update "✅ Analysis Complete" "complete"] ++
        local_sources refs |}).
Proof.
  intros Hk Hs Hc stream answer Hf. unfold Local.on_prompt. rewrite Hk.
  unfold bind, emit, messages_append, ret. cbn [negb messages ui].
  rewrite local_search_web_run. cbn [messages ui]. rewrite Hs, Hc.
  rewrite local_run_analyst_run. cbn [messages ui].
  unfold Local.consume, bind. rewrite local_drain_run. fold stream.
  rewrite Hf. unfold ret. cbn [messages ui String.append]. fold answer.
  unfold local_preamble, local_sources.
  destruct refs as [|r refs]; cbn [when].
  - unfold ret. cbn [messages ui map]. rewrite <- !app_assoc. reflexivity.
  - rewrite (for_each_emit (fun c => st_markdown_f "- " (VStr c))).
    cbn [messages ui]. rewrite <- !app_assoc. reflexivity.
Qed.

Lemma local_on_prompt_stream_failed (key model prompt c : string)
    (refs : list string) (e : exn) (s : Script) :
  str_truthy key = true ->
  search_outcome world prompt key = (Some c, refs) ->
  str_truthy c = true ->
  let stream := Local.ollama world model (Local.analyst_messages prompt c) in
  Local.failure stream = Some e ->
  Local.on_prompt world key model prompt s =
  (Uncaught e,
   {| messages := messages s ++ [user_turn prompt];
      ui := ui s ++ local_preamble key prompt ++
        [status_write "Context retrieved. Analyzing with local Qwen model...";
         st_empty;
         ollama_chat model (Local.analyst_messages prompt c)] ++
        partial_renders "" (Local.chunks stream) |}).
Proof.
  intros Hk Hs Hc stream Hf. unfold Local.on_prompt. rewrite Hk.
  unfold bind, emit, messages_append, ret. cbn [negb messages ui].
  rewrite local_search_web_run. cbn [messages ui]. rewrite Hs, Hc.
  rewrite local_run_analyst_run. cbn [messages ui].
  unfold Local.consume, bind. rewrite local_drain_run. fold stream.
  rewrite Hf. unfold raise. cbn [messages ui].
  unfold local_preamble. rewrite <- !app_assoc. reflexivity.
Qed.

Lemma local_display_message_quiet (msg : Turn) : quiet (Local.display_message msg).
Proof. unfold Local.display_message. auto 10 with quiet. Qed.

Lemma local_display_history_quiet : quiet Local.display_history.
Proof.
  unfold Local.display_history. apply quiet_bind; [apply quiet_get_messages|].
  intros msgs. apply quiet_for_each. exact local_display_message_quiet.
Qed.

Lemma local_display_message_done (msg : Turn) (s : Script) :
  displayable msg = true -> fst (Local.display_message msg s) = Done tt.
Proof.
  unfold displayable, Local.display_message, has_citations, bind, emit.
  cbn [messages ui].
  destruct (citations msg) as [c|]; [|reflexivity].
  destruct (truthy c); [|reflexivity].
  destruct (py_iter c) as [cs|e]; [intros _|discriminate].
  cbn [when lift ret]. unfold bind, emit, ret. cbn [messages ui].
  rewrite (for_each_emit (fun c0 => st_markdown_f "- " c0)). reflexivity.
Qed.

Lemma local_display_history_run (s : Script) :
  forallb displayable (messages s) = true ->
  exists evs, forallb is_render evs = true /\
    Local.display_history s =
    (Done tt, {| messages := messages s; ui := ui s ++ evs |}).
Proof.
  intros Hd. apply quiet_done; [apply local_display_history_quiet|].
  unfold Local.display_history, bind, get_messages.
  apply for_each_done. intros msg s' Hin.
  apply local_display_message_done.
  rewrite forallb_forall in Hd. now apply Hd.
Qed.

(** A run on a displayable history comes down to the prompt's handler,
    started after the history has been drawn. *)
Lemma local_main_run (key model prompt : string) (h : list Turn) :
  forallb displayable h = true ->
  str_truthy prompt = true ->
  exists evs, forallb is_render evs = true /\
    run (Local.main world key model (Some prompt)) h =
    Local.on_prompt world key model prompt {| messages := h; ui := evs |}.
Proof.
  intros Hd Hp. unfold run, Local.main, bind.
  destruct (local_display_history_run {| messages := h; ui := [] |} Hd)
    as (evs & Hevs & Hrun).
  rewrite Hrun, Hp. exists evs. split; [exact Hevs | reflexivity].
Qed.

(** Whatever the stored history, a run either only draws, or draws and
    then handles a submitted prompt. *)
Lemma local_main_cases (key model : string) (chat_input : option string)
    (h : list Turn) :
  let r := run (Local.main world key model chat_input) h in
  (exists evs, forallb is_render evs = true /\
     snd r = {| messages := h; ui := evs |}) \/
  (exists prompt evs,
     chat_input = Some prompt /\ str_truthy prompt = true /\
     forallb is_render evs = true /\
     r = Local.on_prompt world key model prompt {| messages := h; ui := evs |}).
Proof.
  unfold run, Local.main, bind.
  destruct (local_display_history_quiet {| messages := h; ui := [] |})
    as (evs & Hevs & Hs).
  cbn [messages ui app] in Hs.
  destruct (Local.display_history {| messages := h; ui := [] |})
    as [[[]| |e] s1]; cbn [snd] in Hs; subst s1.
  - destruct chat_input as [prompt|].
    + destruct (str_truthy prompt) eqn:Hp.
      * right. exists prompt, evs. repeat split; assumption.
      * left. exists evs. split; [assumption | reflexivity].
    + left. exists evs. split; [assumption | reflexivity].
  - left. exists evs. split; [assumption | reflexivity].
  - left. exists evs. split; [assumption | reflexivity].
Qed.

End LocalRuns.

(** ** The remote script, step by step *)

Section RemoteRuns.

Variable world : Remote.World.

Lemma remote_query_run (msgs : list value) (key model_name : string) (s : Script) :
  Remote.query_perplexity world msgs key model_name s =
  (Done (query_outcome world msgs key model_name),
   {| messages := messages s;
      ui := ui s ++ [requests_post Remote.API_URL (Remote.request_headers key)
                       (Remote.request_payload msgs model_name)] |}).
Proof.
  unfold Remote.query_perplexity, query_outcome, try_except,
    Remote.requests_post_call, bind, emit, lift.
  destruct (Remote.post world _ _ _) as [response|e]; simpl; [|reflexivity].
  destruct (Remote.raise_for_status response) as [[]|e]; simpl; [|reflexivity].
  destruct (Remote.json response) as [parsed|e]; reflexivity.
Qed.

Lemma for_each_enumerate_emit {A : Type} (f : nat -> A -> Event) (xs : list A) :
  forall (start : nat) (s : Script),
    fst (for_each_enumerate xs start (fun i x => emit (f i x)) s) = Done tt.
Proof.
  intros start s. apply for_each_enumerate_done. reflexivity.
Qed.

Lemma remote_display_message_quiet (msg : Turn) : quiet (Remote.display_message msg).
Proof. unfold Remote.display_message. auto 10 with quiet. Qed.

Lemma remote_display_history_quiet : quiet Remote.display_history.
Proof.
  unfold Remote.display_history. apply quiet_bind; [apply quiet_get_messages|].
  intros msgs. apply quiet_for_each. exact remote_display_message_quiet.
Qed.

Lemma remote_display_message_done (msg : Turn) (s : Script) :
  displayable msg = true -> fst (Remote.display_message msg s) = Done tt.
Proof.
  unfold displayable, Remote.display_message, has_citations, bind, emit.
  cbn [messages ui].
  destruct (citations msg) as [c|]; [|reflexivity].
  destruct (truthy c); [|reflexivity].
  destruct (py_iter c) as [cs|e]; [intros _|discriminate].
  cbn [when lift ret]. unfold bind, ret. cbn [messages ui].
  apply (for_each_enumerate_emit (fun i c0 => st_markdown_f (str_nat i ++ ". ") c0)).
Qed.

Lemma remote_display_history_run (s : Script) :
  forallb displayable (messages s) = true ->
  exists evs, forallb is_render evs = true /\
    Remote.display_history s =
    (Done tt, {| messages := messages s; ui := ui s ++ evs |}).
Proof.
  intros Hd. apply quiet_done; [apply remote_display_history_quiet|].
  unfold Remote.display_history, bind, get_messages.
  apply for_each_done. intros msg s' Hin.
  apply remote_display_message_done.
  rewrite forallb_forall in Hd. now apply Hd.
Qed.

Lemma remote_read_answer_quiet (result : value) : quiet (Remote.read_answer result).
Proof. unfold Remote.read_answer. auto 20 with quiet. Qed.

(** Reading the answer either raises or yields the content and the
    citations found in [result]. *)
Lemma remote_read_answer_run (result : value) (s : Script) :
  exists o evs,
    Remote.read_answer result s =
      (o, {| messages := messages s; ui := ui s ++ evs |}) /\
    forallb is_render evs = true /\
    ((exists e, o = Uncaught e) \/
     (exists full cs,
        o = Done (full, cs) /\ answer_content result = Ok full /\
        py_get result "citations" (VList []) = Ok cs /\
        displayable (assistant_turn full cs) = true)).
Proof.
  destruct (remote_read_answer_quiet result s) as (evs & Hevs & Hs).
  destruct (Remote.read_answer result s) as [o s1] eqn:Hrun.
  cbn [snd] in Hs. subst s1. exists o, evs. split; [reflexivity|].
  split; [exact Hevs|].
  revert Hrun. unfold Remote.read_answer, answer_content, bind.
  destruct (getitem result "choices") as [choices|e]; cbn [lift res_bind];
    [|unfold raise; intros [= <- _]; left; now exists e].
  unfold ret at 1.
  destruct (getitem0 choices) as [choice|e]; cbn [lift res_bind];
    [|unfold raise; intros [= <- _]; left; now exists e].
  unfold ret at 1.
  destruct (getitem choice "message") as [message|e]; cbn [lift res_bind];
    [|unfold raise; intros [= <- _]; left; now exists e].
  unfold ret at 1.
  destruct (getitem message "content") as [full|e]; cbn [lift res_bind];
    [|unfold raise; intros [= <- _]; left; now exists e].
  unfold ret at 1.
  destruct (py_get result "citations" (VList [])) as [cs|e]; cbn [lift];
    [|unfold raise; intros [= <- _]; left; now exists e].
  unfold ret at 1. unfold emit at 1.
  assert (Hshow : forall l, truthy cs = true -> py_iter cs = Ok l ->
                            displayable (assistant_turn full cs) = true).
  { intros l Ht Hi. unfold displayable. cbn [citations assistant_turn].
    now rewrite Ht, Hi. }
  assert (Hhide : truthy cs = false ->
                  displayable (assistant_turn full cs) = true).
  { intros Ht. unfold displayable. cbn [citations assistant_turn].
    now rewrite Ht. }
  destruct (truthy cs); cbn [when].
  - unfold bind, emit at 1. cbn [messages ui].
    destruct (py_iter cs) as [l|e]; cbn [lift];
      [|unfold raise; intros [= <- _]; left; now exists e].
    unfold ret at 1.
    pose proof (for_each_enumerate_emit
                  (fun i citation => st_markdown_f ("[" ++ str_nat i ++ "] ") citation)
                  l 1) as Hloop.
    match goal with
    | |- context [for_each_enumerate l 1 ?b ?st] =>
        specialize (Hloop st); destruct (for_each_enumerate l 1 b st) as [o' s']
    end.
    cbn [fst] in Hloop. subst o'. unfold ret. intros [= <- _].
    right. exists full, cs. repeat split. now apply (Hshow l).
  - unfold ret. intros [= <- _]. right. exists full, cs. repeat split.
    now apply Hhide.
Qed.

Lemma remote_on_prompt_no_key (key : string) (model : Remote.Model)
    (prompt : string) (s : Script) :
  str_truthy key = false ->
  Remote.on_prompt world key model prompt s =
  (Stopped,
   {| messages := messages s;
      ui := ui s ++
        [st_error "⚠️ Please enter your API Key in the sidebar to proceed."] |}).
Proof.
  intros Hk. unfold Remote.on_prompt. rewrite Hk. reflexivity.
Qed.

End RemoteRuns.

(** Runs the handler symbolically up to the answer of the request. *)
Ltac run_to_query Hk :=
  unfold Remote.on_prompt; rewrite Hk;
  unfold bind at 1; cbn [negb ret];
  unfold bind at 1; unfold messages_append at 1; cbn [messages ui];
  do 5 (unfold bind at 1; unfold emit at 1; cbn [messages ui]);
  unfold bind at 1; unfold get_messages at 1; cbn [messages ui];
  unfold bind at 1; rewrite remote_query_run; cbn [messages ui].

Section RemoteHandler.

Variable world : Remote.World.

(** With a key, the handler appends the user's turn, sends one request
    built from the history so extended, and then ends in one of three
    ways: an uncaught exception, the error branch, or the answer branch. *)
Lemma remote_on_prompt_run (key : string) (model : Remote.Model)
    (prompt : string) (s : Script) :
  str_truthy key = true ->
  let msgs := request_messages (messages s) prompt in
  let result := query_outcome world msgs key (Remote.model_name model) in
  exists o new tail,
    Remote.on_prompt world key model prompt s =
      (o, {| messages := (messages s ++ [user_turn prompt]) ++ new;
             ui := ui s ++ remote_preamble prompt ++
                   [requests_post Remote.API_URL (Remote.request_headers key)
                      (Remote.request_payload msgs (Remote.model_name model))]
                   ++ tail |}) /\
    existsb is_network tail = false /\
    ((new = [] /\ exists e, o = Uncaught e) \/
     (o = Done tt /\ py_contains "error" result = Ok true /\
      exists err, getitem result "error" = Ok err /\
        tail = [st_error_f "API Error: " err] /\
        new = [assistant_turn (VStr "") (VList [])]) \/
     (o = Done tt /\ py_contains "error" result = Ok false /\
      exists full cs,
        answer_content result = Ok full /\
        py_get result "citations" (VList []) = Ok cs /\
        displayable (assistant_turn full cs) = true /\
        new = [assistant_turn full cs])).
Proof.
  intros Hk msgs result. run_to_query Hk.
  fold (request_messages (messages s) prompt). fold msgs. fold result.
  set (sent := requests_post Remote.API_URL (Remote.request_headers key)
                 (Remote.request_payload msgs (Remote.model_name model))).
  assert (Hui : forall tail : list Event,
    (((((((ui s ++ [st_chat_message "user"]) ++ [st_markdown (VStr prompt)]) ++
         [st_chat_message "assistant"]) ++ [st_empty]) ++
         [st_spinner "Analyzing web data..."]) ++ [sent]) ++ tail)%list =
    (ui s ++ remote_preamble prompt ++ [sent] ++ tail)%list).
  { intros tail. unfold remote_preamble. rewrite <- !app_assoc. reflexivity. }
  unfold bind at 1.
  destruct (py_contains "error" result) as [[|]|e] eqn:Hin; cbn [lift].
  - (* the error branch *)
    unfold ret at 1. unfold bind at 1. unfold bind at 1.
    destruct (getitem result "error") as [err|e] eqn:Herr; cbn [lift].
    + unfold ret at 1. unfold bind at 1. unfold emit at 1. cbn [messages ui].
      unfold ret at 1. unfold messages_append. cbn [messages ui].
      exists (Done tt), [assistant_turn (VStr "") (VList [])],
        [st_error_f "API Error: " err].
      split; [|split; [reflexivity|]].
      * rewrite <- (Hui [st_error_f "API Error: " err]). reflexivity.
      * right. left. repeat split. exists err. repeat split.
    + unfold raise. exists (Uncaught e), [], [].
      split; [|split; [reflexivity|]].
      * rewrite <- (Hui []). rewrite !app_nil_r. reflexivity.
      * left. split; [reflexivity | now exists e].
  - (* the answer branch *)
    unfold ret at 1. unfold bind at 1.
    match goal with
    | |- context [Remote.read_answer result ?st] =>
        destruct (remote_read_answer_run result st)
          as (o & evs & Hrun & Hevs & Hcases)
    end.
    rewrite Hrun. cbn [messages ui].
    destruct Hcases as [[e ->] | (full & cs & -> & Hfull & Hcs & Hshow)].
    + exists (Uncaught e), [], evs.
      split; [|split; [now apply render_not_network|]].
      * rewrite <- (Hui evs). rewrite app_nil_r. reflexivity.
      * left. split; [reflexivity | now exists e].
    + unfold messages_append. cbn [messages ui].
      exists (Done tt), [assistant_turn full cs], evs.
      split; [|split; [now apply render_not_network|]].
      * rewrite <- (Hui evs). reflexivity.
      * right. right. repeat split. now exists full, cs.
  - (* ["error" in result] raises *)
    unfold raise. exists (Uncaught e), [], [].
    split; [|split; [reflexivity|]].
    + rewrite <- (Hui []). rewrite !app_nil_r. reflexivity.
    + left. split; [reflexivity | now exists e].
Qed.

Lemma remote_main_run (key : string) (model : Remote.Model) (prompt : string)
    (h : list Turn) :
  forallb displayable h = true ->
  str_truthy prompt = true ->
  exists evs, forallb is_render evs = true /\
    run (Remote.main world key model false (Some prompt)) h =
    Remote.on_prompt world key model prompt {| messages := h; ui := evs |}.
Proof.
  intros Hd Hp. unfold run, Remote.main, bind.
  destruct (remote_display_history_run {| messages := h; ui := [] |} Hd)
    as (evs & Hevs & Hrun).
  rewrite Hrun, Hp. exists evs. split; [exact Hevs | reflexivity].
Qed.

Lemma remote_main_cases (key : string) (model : Remote.Model)
    (clear_pressed : bool) (chat_input : option string) (h : list Turn) :
  let r := run (Remote.main world key model clear_pressed chat_input) h in
  (exists evs, forallb is_render evs = true /\
     snd r = {| messages := h; ui := evs |}) \/
  (clear_pressed = true /\ snd r = {| messages := []; ui := [] |}) \/
  (exists prompt evs,
     clear_pressed = false /\
     chat_input = Some prompt /\ str_truthy prompt = true /\
     forallb is_render evs = true /\
     r = Remote.on_prompt world key model prompt {| messages := h; ui := evs |}).
Proof.
  unfold run, Remote.main. destruct clear_pressed.
  - right. left. split; reflexivity.
  - unfold bind.
    destruct (remote_display_history_quiet {| messages := h; ui := [] |})
      as (evs & Hevs & Hs).
    cbn [messages ui app] in Hs.
    destruct (Remote.display_history {| messages := h; ui := [] |})
      as [[[]| |e] s1]; cbn [snd] in Hs; subst s1.
    + destruct chat_input as [prompt|].
      * destruct (str_truthy prompt) eqn:Hp.
        -- right. right. exists prompt, evs. repeat split; assumption.
        -- left. exists evs. split; [assumption | reflexivity].
      * left. exists evs. split; [assumption | reflexivity].
    + left. exists evs. split; [assumption | reflexivity].
    + left. exists evs. split; [assumption | reflexivity].
Qed.

End RemoteHandler.

(** ** The context formatter *)

Lemma has_fields_getitem (result : Local.Result) :
  has_fields result = true ->
  exists title url body,
    dict_get result "title" = Some title /\
    dict_get result "url" = Some url /\
    dict_get result "content" = Some body.
Proof.
  unfold has_fields, dict_mem. intros H.
  destruct (dict_get result "title") as [title|]; [|discriminate].
  destruct (dict_get result "url") as [url|]; [|discriminate].
  destruct (dict_get result "content") as [body|]; [|discriminate].
  now exists title, url, body.
Qed.

Lemma format_results_acc (rs : list Local.Result) :
  forallb has_fields rs = true ->
  forall (context_text : string) (refs0 : list string),
  exists context_text' refs,
    Local.format_results rs context_text refs0 =
      Ok (context_text', (refs0 ++ refs)%list)
    /\ Forall2 cites rs refs.
Proof.
  induction rs as [|result rs IH]; intros Hwf context_text refs0.
  - exists context_text, []. split; [|constructor].
    simpl. now rewrite app_nil_r.
  - simpl in Hwf. apply andb_prop in Hwf. destruct Hwf as [Hr Hrs].
    destruct (has_fields_getitem result Hr) as (title & url & body & Ht & Hu & Hb).
    cbn [Local.format_results].
    unfold Local.context_block, Local.citation_ref, Local.result_getitem.
    rewrite Ht, Hu, Hb. cbn [res_bind].
    destruct (IH Hrs
                (context_text ++ nl ++ "---" ++ nl ++ "Title: " ++ title ++ nl
                 ++ "URL: " ++ url ++ nl ++ "Content: " ++ body ++ nl)
                (refs0 ++ [("[" ++ title ++ "](" ++ url ++ ")")%string])%list)
      as (context_text' & refs & Hrun & Hcites).
    exists context_text', (("[" ++ title ++ "](" ++ url ++ ")") :: refs).
    split.
    + rewrite Hrun. rewrite <- app_assoc. reflexivity.
    + constructor; [|exact Hcites]. now exists title, url.
Qed.

(** C6.  For every sequence of search results carrying the three fields of
    the data model, the formatting loop of [search_web] succeeds and its
    citation list runs parallel to the results: it has as many entries as
    there are results and its i-th entry is the i-th result's reference
    [[title](url)].  This list is what [search_web] returns. *)
Theorem citations_parallel_to_results :
  forall (w : Local.World) (query key : string)
         (response : Local.TavilyResponse) (s : Script),
    Local.tavily w key query = Ok response ->
    forallb has_fields (Local.get_results response) = true ->
    exists context_text refs,
      Local.format_results (Local.get_results response) "" [] =
        Ok (context_text, refs) /\
      fst (Local.search_web w query key s) = Done (Some context_text, refs) /\
      length refs = length (Local.get_results response) /\
      Forall2 cites (Local.get_results response) refs.
Proof.
  intros w query key response s Hw Hwf.
  destruct (format_results_acc _ Hwf "" []) as (context_text & refs & Hrun & Hc).
  cbn [app] in Hrun.
  exists context_text, refs. repeat split.
  - exact Hrun.
  - rewrite local_search_web_run. unfold search_outcome.
    rewrite Hw, Hrun. reflexivity.
  - symmetry. eapply Forall2_length. exact Hc.
  - exact Hc.
Qed.

Lemma citations_parallel_to_results_witness :
  Local.tavily two_results_world "tvly-key" "Test Co Q1 earnings" =
    Ok {| Local.results := Some [result_1; result_2] |} /\
  forallb has_fields [result_1; result_2] = true /\
  exists context_text refs,
    Local.format_results [result_1; result_2] "" [] = Ok (context_text, refs) /\
    fst (Local.search_web two_results_world "Test Co Q1 earnings" "tvly-key"
           {| messages := []; ui := [] |}) = Done (Some context_text, refs) /\
    length refs = 2 /\
    Forall2 cites [result_1; result_2] refs.
Proof.
  split; [reflexivity|]. split; [reflexivity|].
  apply (citations_parallel_to_results two_results_world
           "Test Co Q1 earnings" "tvly-key"
           {| Local.results := Some [result_1; result_2] |}
           {| messages := []; ui := [] |}); reflexivity.
Defined.

(** ** The local pipeline *)

Lemma search_outcome_found (w : Local.World) (query key : string)
    (response : Local.TavilyResponse) (c : string) (refs : list string) :
  Local.tavily w key query = Ok response ->
  Local.format_results (Local.get_results response) "" [] = Ok (c, refs) ->
  search_outcome w query key = (Some c, refs).
Proof. intros Hw Hf. unfold search_outcome. now rewrite Hw, Hf. Qed.

Lemma search_outcome_raised (w : Local.World) (query key : string) (e : exn) :
  Local.tavily w key query = Err e ->
  search_outcome w query key = (None, ["Search Error: " ++ str_exn e]).
Proof. intros Hw. unfold search_outcome. now rewrite Hw. Qed.



(** C7.  When the Tavily call raises, [search_web] hands back no context
    and the failure message as its only citation; the run shows the search
    failure as an error and stops: the model is never called and the
    history gains the user's turn only. *)
Theorem search_failure_halts :
  forall (w : Local.World) (key model prompt : string) (h : list Turn) (e : exn),
    forallb displayable h = true ->
    str_truthy prompt = true ->
    str_truthy key = true ->
    Local.tavily w key prompt = Err e ->
    (forall s, fst (Local.search_web w prompt key s) =
               Done (None, ["Search Error: " ++ str_exn e])) /\
    exists evs,
      forallb is_render evs = true /\
      run (Local.main w key model (Some prompt)) h =
      (Stopped,
       {| messages := h ++ [user_turn prompt];
          ui := evs ++ local_preamble key prompt ++
            [status_update "❌ Search Failed" "error";
             st_error "Could not retrieve search results."] |}) /\
      existsb is_generation
        (trace (run (Local.main w key model (Some prompt)) h)) = false.
Proof.
  intros w key model prompt h e Hd Hp Hk Hw.
  pose proof (search_outcome_raised w prompt key e Hw) as Hs.
  split.
  - intros s. rewrite local_search_web_run, Hs. reflexivity.
  - destruct (local_main_run w key model prompt h Hd Hp) as (evs & Hevs & Hrun).
    exists evs. split; [exact Hevs|]. rewrite Hrun.
    rewrite (local_on_prompt_search_failed w key model prompt);
      [| assumption | now rewrite Hs].
    split; [reflexivity|].
    unfold trace. cbn [snd ui]. apply existsb_app_false; [|reflexivity].
    now apply render_not_generation.
Qed.

Lemma search_failure_halts_witness :
  let w := tavily_down_world in
  let key := "tvly-key" in
  let model := "qwen2.5:7b" in
  let prompt := "Test Co Q1 earnings" in
  let r := run (Local.main w key model (Some prompt)) earlier_history in
  forallb displayable earlier_history = true /\
  str_truthy prompt = true /\
  str_truthy key = true /\
  Local.tavily w key prompt = Err (LibraryError "connection refused") /\
  fst (Local.search_web w prompt key {| messages := []; ui := [] |}) =
    Done (None, ["Search Error: connection refused"]) /\
  fst r = Stopped /\
  history_after r = (earlier_history ++ [user_turn prompt])%list /\
  existsb is_generation (trace r) = false.
Proof.
  intros w key model prompt r.
  destruct (search_failure_halts w key model prompt earlier_history
              (LibraryError "connection refused")
              eq_refl eq_refl eq_refl eq_refl)
    as (Hsearch & evs & _ & Hrun & Hgen).
  do 4 (split; [reflexivity|]).
  split; [apply Hsearch|].
  unfold r. rewrite Hrun. split; [reflexivity|]. split; [reflexivity|].
  rewrite <- Hrun. exact Hgen.
Defined.

(** C1, as stated, fails: Tavily answers with zero results, and the run
    reports an error and never calls the model. *)
Lemma zero_results_counterexample :
  let r := run (Local.main zero_results_world "tvly-key" "qwen2.5:7b"
                  (Some "Test Co Q1 earnings")) [] in
  Local.tavily zero_results_world "tvly-key" "Test Co Q1 earnings" =
    Ok {| Local.results := Some [] |} /\
  ~ (existsb is_error (trace r) = false /\
     existsb is_generation (trace r) = true).
Proof.
  split; [reflexivity|]. intros [Herr _]. vm_compute in Herr. discriminate Herr.
Qed.

(** C1, amended.  When the search call succeeds with zero results, the
    formatter yields the empty context string and the empty citation list
    and [search_web] returns them; the caller's [if not context] takes the
    empty string for a failed search: the run shows the search failure as
    an error and stops before the model is called, the history having
    gained the user's turn only. *)
Theorem zero_results_stop_the_run :
  forall (w : Local.World) (key model prompt : string) (h : list Turn)
         (response : Local.TavilyResponse),
    forallb displayable h = true ->
    str_truthy prompt = true ->
    str_truthy key = true ->
    Local.tavily w key prompt = Ok response ->
    Local.get_results response = [] ->
    Local.format_results (Local.get_results response) "" [] = Ok ("", []) /\
    (forall s, fst (Local.search_web w prompt key s) = Done (Some "", [])) /\
    exists evs,
      forallb is_render evs = true /\
      run (Local.main w key model (Some prompt)) h =
      (Stopped,
       {| messages := h ++ [user_turn prompt];
          ui := evs ++ local_preamble key prompt ++
            [status_update "❌ Search Failed" "error";
             st_error "Could not retrieve search results."] |}) /\
      existsb is_generation
        (trace (run (Local.main w key model (Some prompt)) h)) = false.
Proof.
  intros w key model prompt h response Hd Hp Hk Hw Hnil.
  assert (Hf : Local.format_results (Local.get_results response) "" [] =
               Ok ("", [])) by (rewrite Hnil; reflexivity).
  pose proof (search_outcome_found w prompt key response "" [] Hw Hf) as Hs.
  split; [exact Hf|]. split.
  - intros s. rewrite local_search_web_run, Hs. reflexivity.
  - destruct (local_main_run w key model prompt h Hd Hp) as (evs & Hevs & Hrun).
    exists evs. split; [exact Hevs|]. rewrite Hrun.
    rewrite (local_on_prompt_search_failed w key model prompt);
      [| assumption | now rewrite Hs].
    split; [reflexivity|].
    unfold trace. cbn [snd ui]. apply existsb_app_false; [|reflexivity].
    now apply render_not_generation.
Qed.

Lemma zero_results_stop_the_run_witness :
  let w := zero_results_world in
  let key := "tvly-key" in
  let model := "qwen2.5:7b" in
  let prompt := "Test Co Q1 earnings" in
  let response := {| Local.results := Some [] |} in
  let r := run (Local.main w key model (Some prompt)) earlier_history in
  forallb displayable earlier_history = true /\
  str_truthy prompt = true /\
  str_truthy key = true /\
  Local.tavily w key prompt = Ok response /\
  Local.get_results response = [] /\
  fst (Local.search_web w prompt key {| messages := []; ui := [] |}) =
    Done (Some "", []) /\
  fst r = Stopped /\
  history_after r = (earlier_history ++ [user_turn prompt])%list /\
  existsb is_generation (trace r) = false.
Proof.
  intros w key model prompt response r.
  destruct (zero_results_stop_the_run w key model prompt earlier_history
              response eq_refl eq_refl eq_refl eq_refl eq_refl)
    as (_ & Hsearch & evs & _ & Hrun & Hgen).
  do 5 (split; [reflexivity|]).
  split; [apply Hsearch|].
  unfold r. rewrite Hrun. split; [reflexivity|]. split; [reflexivity|].
  rewrite <- Hrun. exact Hgen.
Defined.

(** ** The remote pipeline *)

Lemma render_mem (e : Event) (evs : list Event) :
  forallb is_render evs = true -> In e evs -> is_render e = true.
Proof. intros H Hin. rewrite forallb_forall in H. now apply H. Qed.

Lemma no_network_mem (e : Event) (evs : list Event) :
  existsb is_network evs = false -> In e evs -> is_network e = false.
Proof.
  intros H Hin. destruct (is_network e) eqn:He; [|reflexivity].
  assert (existsb is_network evs = true) by (apply existsb_exists; eauto).
  congruence.
Qed.

(** C8.  [query_perplexity] always returns: it performs the one request
    and hands back either the parsed body, when the call, the status check
    and the parsing all went through, or the dictionary holding the
    message of whichever of the three raised, under the key ["error"],
    on which the caller's ["error" in result] answers [True]. *)
Theorem query_perplexity_never_raises :
  forall (w : Remote.World) (msgs : list value) (key model_name : string)
         (s : Script),
    let headers := Remote.request_headers key in
    let payload := Remote.request_payload msgs model_name in
    exists result,
      Remote.query_perplexity w msgs key model_name s =
        (Done result,
         {| messages := messages s;
            ui := ui s ++ [requests_post Remote.API_URL headers payload] |}) /\
      ((exists response,
          Remote.post w Remote.API_URL headers payload = Ok response /\
          Remote.raise_for_status response = Ok tt /\
          Remote.json response = Ok result) \/
       (exists e,
          result = VDict [("error", VStr (str_exn e))] /\
          py_contains "error" result = Ok true /\
          (Remote.post w Remote.API_URL headers payload = Err e \/
           exists response,
             Remote.post w Remote.API_URL headers payload = Ok response /\
             (Remote.raise_for_status response = Err e \/
              (Remote.raise_for_status response = Ok tt /\
               Remote.json response = Err e))))).
Proof.
  intros w msgs key model_name s headers payload.
  exists (query_outcome w msgs key model_name).
  split; [apply remote_query_run|].
  unfold query_outcome. fold headers. fold payload.
  destruct (Remote.post w Remote.API_URL headers payload) as [response|e].
  - destruct (Remote.raise_for_status response) as [[]|e] eqn:Hst.
    + destruct (Remote.json response) as [parsed|e] eqn:Hj.
      * left. now exists response.
      * right. exists e. repeat split. right. exists response.
        split; [reflexivity|]. right. now split.
    + right. exists e. repeat split. right. exists response.
      split; [reflexivity|]. now left.
  - right. exists e. repeat split. now left.
Qed.

(** C2 does not hold of the code: the endpoint refuses the request,
    [query_perplexity] returns [{"error": "rate limited"}], the error is
    shown, and the run goes on to append an assistant turn with empty
    content and no citations after the user's turn. *)
Theorem api_error_appends_empty_assistant_turn :
  let prompt := "Analyze Apple's latest 10-K risks" in
  let r := run (Remote.main rate_limited_world "pplx-key" Remote.sonar false
                  (Some prompt)) earlier_history in
  fst (Remote.query_perplexity rate_limited_world
         (request_messages earlier_history prompt) "pplx-key" "sonar"
         {| messages := []; ui := [] |}) =
    Done (VDict [("error", VStr "rate limited")]) /\
  fst r = Done tt /\
  In (st_error_f "API Error: " (VStr "rate limited")) (trace r) /\
  history_after r =
    (earlier_history ++
     [user_turn prompt; assistant_turn (VStr "") (VList [])])%list.
Proof.
  split; [reflexivity|]. split; [reflexivity|]. split; [|reflexivity].
  vm_compute. do 12 right. left. reflexivity.
Qed.

(** Any failed exchange ends the same way. *)
Lemma remote_on_prompt_error (w : Remote.World) (key : string)
    (model : Remote.Model) (prompt : string) (s : Script) (e : exn) :
  str_truthy key = true ->
  query_outcome w (request_messages (messages s) prompt) key
    (Remote.model_name model) = error_object e ->
  Remote.on_prompt w key model prompt s =
  (Done tt,
   {| messages := messages s ++
        [user_turn prompt; assistant_turn (VStr "") (VList [])];
      ui := ui s ++ remote_preamble prompt ++
        [requests_post Remote.API_URL (Remote.request_headers key)
           (Remote.request_payload (request_messages (messages s) prompt)
              (Remote.model_name model));
         st_error_f "API Error: " (VStr (str_exn e))] |}).
Proof.
  intros Hk Hq. run_to_query Hk.
  fold (request_messages (messages s) prompt). rewrite Hq.
  unfold error_object, bind, emit, ret, messages_append. cbn.
  unfold remote_preamble. rewrite <- !app_assoc. reflexivity.
Qed.

Lemma remote_error_run (w : Remote.World) (key : string)
    (model : Remote.Model) (prompt : string) (h : list Turn) (e : exn) :
  forallb displayable h = true ->
  str_truthy prompt = true ->
  str_truthy key = true ->
  query_outcome w (request_messages h prompt) key (Remote.model_name model) =
    error_object e ->
  let r := run (Remote.main w key model false (Some prompt)) h in
  fst r = Done tt /\
  In (st_error_f "API Error: " (VStr (str_exn e))) (trace r) /\
  history_after r =
    (h ++ [user_turn prompt; assistant_turn (VStr "") (VList [])])%list.
Proof.
  intros Hd Hp Hk Hq r.
  destruct (remote_main_run w key model prompt h Hd Hp) as (evs & Hevs & Hrun).
  unfold r, history_after, trace. rewrite Hrun.
  rewrite (remote_on_prompt_error w key model prompt
             {| messages := h; ui := evs |} e Hk Hq).
  cbn [fst snd messages ui]. split; [reflexivity|]. split; [|reflexivity].
  apply in_or_app. right. apply in_or_app. right. right. now left.
Qed.

(** ** Both pipelines *)

(** C3, as stated, fails: with no credential, neither variant has appended
    the user's message by the time the run stops. *)
Lemma missing_credential_counterexample :
  let prompt := "Test Co Q1 earnings" in
  let l := run (Local.main two_results_world "" "qwen2.5:7b" (Some prompt)) [] in
  let r := run (Remote.main answering_world "" Remote.sonar false (Some prompt)) [] in
  ~ (In (user_turn prompt) (history_after l) \/
     In (user_turn prompt) (history_after r)).
Proof. vm_compute. intros [[]|[]]. Qed.

(** C3, amended.  With an empty credential, either variant checks the key
    before it appends anything: the run shows the missing-key error and
    stops, no request of any kind has been made, and the history is the
    one the run started from, without the user's turn and without an
    assistant turn. *)
Theorem missing_credential_leaves_history :
  forall (lw : Local.World) (rw : Remote.World) (selected_model : string)
         (model : Remote.Model) (prompt : string) (h : list Turn),
    forallb displayable h = true ->
    str_truthy prompt = true ->
    let l := run (Local.main lw "" selected_model (Some prompt)) h in
    let r := run (Remote.main rw "" model false (Some prompt)) h in
    (fst l = Stopped /\ history_after l = h /\
     existsb is_network (trace l) = false /\
     In (st_error "Please enter your Tavily API Key in the sidebar.") (trace l))
    /\
    (fst r = Stopped /\ history_after r = h /\
     existsb is_network (trace r) = false /\
     In (st_error "⚠️ Please enter your API Key in the sidebar to proceed.")
        (trace r)).
Proof.
  intros lw rw selected_model model prompt h Hd Hp l r. split.
  - destruct (local_main_run lw "" selected_model prompt h Hd Hp)
      as (evs & Hevs & Hrun).
    unfold l, history_after, trace. rewrite Hrun.
    rewrite local_on_prompt_no_key by reflexivity. cbn [fst snd messages ui].
    repeat split.
    + apply existsb_app_false; [now apply render_not_network | reflexivity].
    + apply in_or_app. right. now left.
  - destruct (remote_main_run rw "" model prompt h Hd Hp)
      as (evs & Hevs & Hrun).
    unfold r, history_after, trace. rewrite Hrun.
    rewrite remote_on_prompt_no_key by reflexivity. cbn [fst snd messages ui].
    repeat split.
    + apply existsb_app_false; [now apply render_not_network | reflexivity].
    + apply in_or_app. right. now left.
Qed.

Lemma missing_credential_leaves_history_witness :
  let prompt := "Test Co Q1 earnings" in
  let l := run (Local.main two_results_world "" "qwen2.5:7b" (Some prompt))
             earlier_history in
  let r := run (Remote.main answering_world "" Remote.sonar false (Some prompt))
             earlier_history in
  forallb displayable earlier_history = true /\
  str_truthy prompt = true /\
  (fst l = Stopped /\ history_after l = earlier_history /\
   existsb is_network (trace l) = false /\
   In (st_error "Please enter your Tavily API Key in the sidebar.") (trace l))
  /\
  (fst r = Stopped /\ history_after r = earlier_history /\
   existsb is_network (trace r) = false /\
   In (st_error "⚠️ Please enter your API Key in the sidebar to proceed.")
      (trace r)).
Proof.
  intros prompt l r.
  split; [reflexivity|]. split; [reflexivity|].
  apply (missing_credential_leaves_history two_results_world answering_world
           "qwen2.5:7b" Remote.sonar prompt earlier_history);
    reflexivity.
Defined.

(** What the local handler can do to the history. *)
Lemma local_on_prompt_cases (w : Local.World) (key model prompt : string)
    (s : Script) :
  let h' := messages (snd (Local.on_prompt w key model prompt s)) in
  h' = messages s \/
  h' = (messages s ++ [user_turn prompt])%list \/
  exists c refs answer,
    search_outcome w prompt key = (Some c, refs) /\
    h' = (messages s ++
          [user_turn prompt;
           assistant_turn (VStr answer) (VList (map VStr refs))])%list.
Proof.
  intros h'. subst h'.
  destruct (str_truthy key) eqn:Hk.
  - destruct (search_outcome w prompt key) as [[c|] refs] eqn:Hs.
    + destruct (str_truthy c) eqn:Hc.
      * destruct (Local.failure (Local.ollama w model
                    (Local.analyst_messages prompt c))) as [e|] eqn:Hf.
        -- right. left.
           now rewrite (local_on_prompt_stream_failed w key model prompt c
                          refs e s Hk Hs Hc Hf).
        -- right. right. exists c, refs.
           eexists. split; [reflexivity|].
           now rewrite (local_on_prompt_answered w key model prompt c refs
                          s Hk Hs Hc Hf).
      * right. left. rewrite local_on_prompt_search_failed; auto.
        rewrite Hs. simpl. now rewrite Hc.
    + right. left. rewrite local_on_prompt_search_failed; auto.
      now rewrite Hs.
  - left. rewrite local_on_prompt_no_key; auto.
Qed.



(** ** What is sent to the remote API *)

(** The requests a run sends. *)
Lemma remote_requests (w : Remote.World) (key : string) (model : Remote.Model)
    (clear_pressed : bool) (chat_input : option string) (h : list Turn) :
  let r := run (Remote.main w key model clear_pressed chat_input) h in
  filter is_network (trace r) = [] \/
  exists prompt,
    clear_pressed = false /\ chat_input = Some prompt /\
    str_truthy prompt = true /\ str_truthy key = true /\
    filter is_network (trace r) =
      [requests_post Remote.API_URL (Remote.request_headers key)
         (Remote.request_payload (request_messages h prompt)
            (Remote.model_name model))].
Proof.
  assert (Hquiet : forall evs, forallb is_render evs = true ->
                               filter is_network evs = []).
  { induction evs as [|x evs IH]; simpl; [reflexivity|].
    intros H. apply andb_prop in H. destruct H as [Hx Hevs].
    rewrite (IH Hevs). destruct x; simpl in *; congruence. }
  assert (Hsilent : forall evs, existsb is_network evs = false ->
                                filter is_network evs = []).
  { induction evs as [|x evs IH]; simpl; [reflexivity|].
    intros H. apply orb_false_elim in H. destruct H as [Hx Hevs].
    now rewrite Hx, (IH Hevs). }
  intros r. subst r. unfold trace.
  destruct (remote_main_cases w key model clear_pressed chat_input h)
    as [(evs & Hevs & Hs) | [(-> & Hs) |
                             (prompt & evs & -> & -> & Hp & Hevs & Hrun)]].
  - left. rewrite Hs. now apply Hquiet.
  - left. now rewrite Hs.
  - rewrite Hrun. destruct (str_truthy key) eqn:Hk.
    + destruct (remote_on_prompt_run w key model prompt
                  {| messages := h; ui := evs |} Hk)
        as (o & new & tail & Hon & Htail & _).
      cbn [messages ui] in Hon. rewrite Hon. cbn [snd ui].
      right. exists prompt. repeat split; try assumption.
      rewrite !filter_app, (Hquiet evs Hevs), (Hsilent tail Htail).
      reflexivity.
    + left. rewrite remote_on_prompt_no_key by assumption. cbn [snd ui].
      rewrite filter_app, (Hquiet evs Hevs). reflexivity.
Qed.

(** A submitted prompt, a key and a displayable history: the request goes out. *)
Lemma remote_request_sent (w : Remote.World) (key : string)
    (model : Remote.Model) (prompt : string) (h : list Turn) :
  forallb displayable h = true ->
  str_truthy prompt = true ->
  str_truthy key = true ->
  filter is_network
    (trace (run (Remote.main w key model false (Some prompt)) h)) =
  [requests_post Remote.API_URL (Remote.request_headers key)
     (Remote.request_payload (request_messages h prompt)
        (Remote.model_name model))].
Proof.
  intros Hd Hp Hk.
  destruct (remote_requests w key model false (Some prompt) h)
    as [Hnone | (p & _ & [= <-] & _ & _ & Hone)]; [|exact Hone].
  exfalso.
  destruct (remote_main_run w key model prompt h Hd Hp) as (evs & _ & Hrun).
  destruct (remote_on_prompt_run w key model prompt
              {| messages := h; ui := evs |} Hk)
    as (o & new & tail & Hon & _ & _).
  unfold trace in Hnone. rewrite Hrun, Hon in Hnone. cbn [snd ui] in Hnone.
  rewrite !filter_app in Hnone.
  cbn [remote_preamble filter is_network] in Hnone.
  apply app_eq_nil in Hnone. destruct Hnone as [_ Hnone]. discriminate Hnone.
Qed.

(** C9.  Every request a run of the remote script sends is the one built
    for the submitted prompt: its model is the select box's choice, one of
    ["sonar"] and ["sonar-reasoning"]; its messages are the system
    instruction followed by the role and content of every stored turn, in
    order, the user's new turn last; and [return_citations] is [True]. *)
Theorem request_carries_full_history :
  forall (w : Remote.World) (key : string) (model : Remote.Model)
         (clear_pressed : bool) (chat_input : option string) (h : list Turn)
         (url : string) (headers : list (string * string)) (payload : value),
    In (requests_post url headers payload)
       (trace (run (Remote.main w key model clear_pressed chat_input) h)) ->
    exists prompt,
      chat_input = Some prompt /\
      payload =
        VDict
          [("model", VStr (Remote.model_name model));
           ("messages",
            VList
              (VDict [("role", VStr "system");
                      ("content", VStr Remote.system_instruction)]
               :: map (fun m => VDict [("role", VStr (role m));
                                       ("content", content m)])
                    (h ++ [user_turn prompt])));
           ("return_citations", VBool true)] /\
      (Remote.model_name model = "sonar" \/
       Remote.model_name model = "sonar-reasoning").
Proof.
  intros w key model clear_pressed chat_input h url headers payload Hin.
  assert (Hnet : In (requests_post url headers payload)
                   (filter is_network
                      (trace (run (Remote.main w key model clear_pressed
                                     chat_input) h))))
    by (apply filter_In; split; [exact Hin | reflexivity]).
  destruct (remote_requests w key model clear_pressed chat_input h)
    as [Hnone | (prompt & _ & -> & _ & _ & Hone)].
  - rewrite Hnone in Hnet. destruct Hnet.
  - rewrite Hone in Hnet. destruct Hnet as [Heq | []].
    injection Heq as _ _ <-.
    exists prompt. split; [reflexivity|]. split; [reflexivity|].
    destruct model; [now left | now right].
Qed.

Lemma request_carries_full_history_witness :
  let prompt := "Analyze Apple's latest 10-K risks" in
  let payload :=
    VDict
      [("model", VStr "sonar-reasoning");
       ("messages",
        VList
          [VDict [("role", VStr "system");
                  ("content", VStr Remote.system_instruction)];
           VDict [("role", VStr "user");
                  ("content", VStr "Google Q4 2025 earnings analysis")];
           VDict [("role", VStr "assistant");
                  ("content", VStr "Revenue grew.")];
           VDict [("role", VStr "user"); ("content", VStr prompt)]]);
       ("return_citations", VBool true)] in
  In (requests_post Remote.API_URL (Remote.request_headers "pplx-key") payload)
     (trace (run (Remote.main answering_world "pplx-key" Remote.sonar_reasoning
                    false (Some prompt)) earlier_history)) /\
  exists prompt',
    Some prompt = Some prompt' /\
    payload =
      VDict
        [("model", VStr (Remote.model_name Remote.sonar_reasoning));
         ("messages",
          VList
            (VDict [("role", VStr "system");
                    ("content", VStr Remote.system_instruction)]
             :: map (fun m => VDict [("role", VStr (role m));
                                     ("content", content m)])
                  (earlier_history ++ [user_turn prompt'])));
         ("return_citations", VBool true)] /\
    (Remote.model_name Remote.sonar_reasoning = "sonar" \/
     Remote.model_name Remote.sonar_reasoning = "sonar-reasoning").
Proof.
  intros prompt payload.
  assert (Hin : In (requests_post Remote.API_URL
                      (Remote.request_headers "pplx-key") payload)
                  (trace (run (Remote.main answering_world "pplx-key"
                                 Remote.sonar_reasoning false (Some prompt))
                            earlier_history))).
  { vm_compute. do 11 right. left. reflexivity. }
  split; [exact Hin|].
  exact (request_carries_full_history answering_world "pplx-key"
           Remote.sonar_reasoning false (Some prompt) earlier_history
           Remote.API_URL (Remote.request_headers "pplx-key") payload Hin).
Defined.

(** Histories with the same roles and contents give the same messages. *)
Lemma request_messages_visible (h1 h2 : list Turn) (prompt : string) :
  Forall2 (fun t1 t2 => role t1 = role t2 /\ content t1 = content t2) h1 h2 ->
  request_messages h1 prompt = request_messages h2 prompt.
Proof.
  intros H. unfold request_messages. f_equal. rewrite !map_app. f_equal.
  induction H as [|t1 t2 h1 h2 [Hr Hc] _ IH]; simpl; [reflexivity|].
  unfold Remote.api_message at 1 3. now rewrite Hr, Hc, IH.
Qed.

(** C10.  Two stored histories with the same roles and contents, turn by
    turn, whatever citations they carry, lead a run to send the same
    requests: same URL, same headers, same payload. *)
Theorem request_ignores_stored_citations :
  forall (w : Remote.World) (key : string) (model : Remote.Model)
         (clear_pressed : bool) (chat_input : option string)
         (h1 h2 : list Turn),
    Forall2 (fun t1 t2 => role t1 = role t2 /\ content t1 = content t2) h1 h2 ->
    forallb displayable h1 = true ->
    forallb displayable h2 = true ->
    filter is_network
      (trace (run (Remote.main w key model clear_pressed chat_input) h1)) =
    filter is_network
      (trace (run (Remote.main w key model clear_pressed chat_input) h2)).
Proof.
  intros w key model clear_pressed chat_input h1 h2 Hsame Hd1 Hd2.
  destruct (remote_requests w key model clear_pressed chat_input h1)
    as [H1 | (p1 & -> & -> & Hp & Hk & H1)].
  - destruct (remote_requests w key model clear_pressed chat_input h2)
      as [H2 | (p2 & -> & -> & Hp & Hk & _)].
    + now rewrite H1, H2.
    + now rewrite (remote_request_sent w key model p2 h1 Hd1 Hp Hk) in H1.
  - rewrite H1, (remote_request_sent w key model p1 h2 Hd2 Hp Hk).
    now rewrite (request_messages_visible h1 h2 p1 Hsame).
Qed.

Lemma request_ignores_stored_citations_witness :
  let prompt := "Analyze Apple's latest 10-K risks" in
  let sent h :=
    filter is_network
      (trace (run (Remote.main answering_world "pplx-key" Remote.sonar false
                     (Some prompt)) h)) in
  Forall2 (fun t1 t2 => role t1 = role t2 /\ content t1 = content t2)
    earlier_history earlier_history_recited /\
  forallb displayable earlier_history = true /\
  forallb displayable earlier_history_recited = true /\
  map citations earlier_history <> map citations earlier_history_recited /\
  length (sent earlier_history) = 1 /\
  sent earlier_history = sent earlier_history_recited.
Proof.
  intros prompt sent.
  assert (Hsame : Forall2 (fun t1 t2 => role t1 = role t2 /\ content t1 = content t2)
                    earlier_history earlier_history_recited)
    by (repeat constructor).
  split; [exact Hsame|]. split; [reflexivity|]. split; [reflexivity|].
  split; [discriminate|]. split; [reflexivity|].
  exact (request_ignores_stored_citations answering_world "pplx-key"
           Remote.sonar false (Some prompt) earlier_history
           earlier_history_recited Hsame eq_refl eq_refl).
Defined.

(** ** Sessions *)

Lemma forallb_displayable_app (h new : list Turn) :
  forallb displayable h = true ->
  forallb displayable new = true ->
  forallb displayable (h ++ new) = true.
Proof. intros Hh Hn. now rewrite forallb_app, Hh, Hn. Qed.

(** Every history a local session can hold is displayable. *)
Lemma local_reachable_displayable (h : list Turn) :
  local_reachable h -> forallb displayable h = true.
Proof.
  induction 1 as [|h w key model chat_input _ IH]; [reflexivity|].
  unfold history_after.
  destruct (local_main_cases w key model chat_input h)
    as [(evs & _ & Hs) | (prompt & evs & _ & _ & _ & Hrun)].
  - now rewrite Hs.
  - rewrite Hrun.
    destruct (local_on_prompt_cases w key model prompt
                {| messages := h; ui := evs |})
      as [H | [H | (c & refs & answer & _ & H)]];
      cbn [messages] in H; rewrite H.
    + exact IH.
    + now apply forallb_displayable_app.
    + apply forallb_displayable_app; [exact IH|].
      unfold displayable. cbn. destruct (map VStr refs); reflexivity.
Qed.

(** Every history a remote session can hold is displayable. *)
Lemma remote_reachable_displayable (h : list Turn) :
  remote_reachable h -> forallb displayable h = true.
Proof.
  induction 1 as [|h w key model clear_pressed chat_input _ IH]; [reflexivity|].
  unfold history_after.
  destruct (remote_main_cases w key model clear_pressed chat_input h)
    as [(evs & _ & Hs) | [(_ & Hs) | (prompt & evs & _ & _ & _ & _ & Hrun)]].
  - now rewrite Hs.
  - now rewrite Hs.
  - rewrite Hrun. destruct (str_truthy key) eqn:Hk.
    + destruct (remote_on_prompt_run w key model prompt
                  {| messages := h; ui := evs |} Hk)
        as (o & new & tail & Hon & _ & Hcases).
      cbn [messages ui] in Hon, Hcases. rewrite Hon. cbn [snd messages].
      apply forallb_displayable_app;
        [now apply forallb_displayable_app|].
      destruct Hcases as [(-> & _) | [(_ & _ & err & _ & _ & ->) |
                                      (_ & _ & full & cs & _ & _ & Hshow & ->)]].
      * reflexivity.
      * reflexivity.
      * cbn [forallb]. now rewrite Hshow.
    + now rewrite remote_on_prompt_no_key.
Qed.

(** ** Worked runs *)

(** Two results, three chunks: the stored answer and its two citations. *)
Example local_two_results_run :
  history_after
    (run (Local.main two_results_world "tvly-key" "qwen2.5:7b"
            (Some "Test Co Q1 earnings")) []) =
  [user_turn "Test Co Q1 earnings";
   assistant_turn (VStr "Revenue up 10%.")
     (VList [VStr "[Test Co Q1](https://example.com/q1)";
             VStr "[Press release](https://example.com/pr)"])].
Proof. reflexivity. Qed.

(** A result without its title makes the loop raise [KeyError('title')],
    which [search_web] turns into its failure value. *)
Example local_result_without_title :
  Local.format_results [[("url", "https://example.com")]] "" [] =
    Err (KeyError "'title'") /\
  search_outcome
    {| Local.tavily := fun _ _ =>
         Ok {| Local.results := Some [[("url", "https://example.com")]] |};
       Local.ollama := fun _ _ => three_chunks |}
    "Test Co Q1 earnings" "tvly-key" =
    (None, ["Search Error: 'title'"]).
Proof. split; reflexivity. Qed.

(** A completion with one citation: both are stored on the new turn. *)
Example remote_completion_run :
  history_after
    (run (Remote.main answering_world "pplx-key" Remote.sonar false
            (Some "Analyze Apple's latest 10-K risks")) earlier_history) =
  (earlier_history ++
   [user_turn "Analyze Apple's latest 10-K risks";
    assistant_turn (VStr "Margins held.")
      (VList [VStr "https://example.com/10k"])])%list.
Proof. reflexivity. Qed.

(** The clear button empties the history. *)
Example remote_clear_run :
  run (Remote.main answering_world "pplx-key" Remote.sonar true None)
    earlier_history =
  (Done tt, {| messages := []; ui := [] |}).
Proof. reflexivity. Qed.

(** * Further properties *)

(** ** The formatter in closed form *)

Lemma concatenation_app (xs ys : list string) :
  concatenation (xs ++ ys) = concatenation xs ++ concatenation ys.
Proof.
  induction xs as [|x xs IH]; simpl; [reflexivity|].
  now rewrite IH, append_assoc.
Qed.

Lemma context_block_ok (result : Local.Result) (block : string) :
  Local.context_block result = Ok block <-> renders_block result block.
Proof.
  unfold Local.context_block, Local.result_getitem, renders_block. split.
  - destruct (dict_get result "title") as [title|]; [|discriminate].
    destruct (dict_get result "url") as [url|]; [|discriminate].
    destruct (dict_get result "content") as [body|]; [|discriminate].
    cbn [res_bind]. intros [= <-]. now exists title, url, body.
  - intros (title & url & body & -> & -> & -> & ->). reflexivity.
Qed.

Lemma citation_ref_ok (result : Local.Result) (ref : string) :
  Local.citation_ref result = Ok ref <-> cites result ref.
Proof.
  unfold Local.citation_ref, Local.result_getitem, cites. split.
  - destruct (dict_get result "title") as [title|]; [|discriminate].
    destruct (dict_get result "url") as [url|]; [|discriminate].
    cbn [res_bind]. intros [= <-]. now exists title, url.
  - intros (title & url & -> & -> & ->). reflexivity.
Qed.

(** What a successful loop has computed, for any starting accumulators. *)
Lemma format_results_inv (rs : list Local.Result) :
  forall (context_text : string) (refs0 : list string)
         (c : string) (refs : list string),
    Local.format_results rs context_text refs0 = Ok (c, refs) ->
    exists blocks new,
      Forall2 renders_block rs blocks /\ Forall2 cites rs new /\
      c = context_text ++ concatenation blocks /\ refs = (refs0 ++ new)%list.
Proof.
  induction rs as [|result rs IH]; intros context_text refs0 c refs Hrun.
  - injection Hrun as <- <-. exists [], [].
    repeat split; try constructor.
    + simpl. now rewrite append_nil_r.
    + now rewrite app_nil_r.
  - cbn [Local.format_results] in Hrun.
    destruct (Local.context_block result) as [block|e] eqn:Hb;
      [|discriminate Hrun].
    destruct (Local.citation_ref result) as [ref|e] eqn:Hr;
      [|discriminate Hrun].
    cbn [res_bind] in Hrun.
    destruct (IH _ _ _ _ Hrun) as (blocks & new & Hblocks & Hnew & -> & ->).
    exists (block :: blocks), (ref :: new). repeat split.
    + constructor; [now apply context_block_ok | exact Hblocks].
    + constructor; [now apply citation_ref_ok | exact Hnew].
    + simpl. now rewrite append_assoc.
    + now rewrite <- app_assoc.
Qed.

Lemma format_results_intro (rs : list Local.Result) (blocks new : list string) :
  Forall2 renders_block rs blocks -> Forall2 cites rs new ->
  forall (context_text : string) (refs0 : list string),
    Local.format_results rs context_text refs0 =
    Ok (context_text ++ concatenation blocks, (refs0 ++ new)%list).
Proof.
  intros Hblocks. revert new.
  induction Hblocks as [|result block rs blocks Hb _ IH];
    intros new Hnew context_text refs0.
  - inversion Hnew. simpl. now rewrite append_nil_r, app_nil_r.
  - inversion Hnew as [|? ref ? new' Hr Hnew' ]; subst.
    cbn [Local.format_results].
    apply context_block_ok in Hb. apply citation_ref_ok in Hr.
    rewrite Hb, Hr. cbn [res_bind]. rewrite (IH new' Hnew').
    simpl. now rewrite append_assoc, <- app_assoc.
Qed.

(** X1.  The formatting loop succeeds exactly when every result yields its
    block and its reference, and then the context is the blocks put end to
    end in the order of the results, and the citations are the references
    in that order. *)
Theorem formatter_closed_form :
  forall (rs : list Local.Result) (c : string) (refs : list string),
    Local.format_results rs "" [] = Ok (c, refs) <->
    exists blocks,
      Forall2 renders_block rs blocks /\ Forall2 cites rs refs /\
      c = concatenation blocks.
Proof.
  intros rs c refs. split.
  - intros Hrun.
    destruct (format_results_inv rs "" [] c refs Hrun)
      as (blocks & new & Hblocks & Hnew & -> & ->).
    now exists blocks.
  - intros (blocks & Hblocks & Hrefs & ->).
    now rewrite (format_results_intro rs blocks refs Hblocks Hrefs "" []).
Qed.

Lemma block_not_empty (result : Local.Result) (block : string) :
  renders_block result block -> block <> "".
Proof. intros (title & url & body & _ & _ & _ & ->). discriminate. Qed.

(** X2.  A successful formatting keeps the two outputs in step with the
    results: as many citations as results, and an empty context exactly
    when there is no result, which is also exactly when there is no
    citation. *)
Theorem formatter_outputs_in_step :
  forall (rs : list Local.Result) (c : string) (refs : list string),
    Local.format_results rs "" [] = Ok (c, refs) ->
    length refs = length rs /\
    (c = "" <-> rs = []) /\
    (refs = [] <-> rs = []).
Proof.
  intros rs c refs Hrun.
  destruct (format_results_inv rs "" [] c refs Hrun)
    as (blocks & new & Hblocks & Hnew & -> & ->).
  cbn [app String.append]. split; [|split].
  - symmetry. now apply (Forall2_length Hnew).
  - destruct Hblocks as [|result block rs blocks Hb _].
    + split; reflexivity.
    + split; [|discriminate]. intros Hc. exfalso.
      apply (block_not_empty result block Hb).
      simpl in Hc. destruct block; [reflexivity | discriminate Hc].
  - destruct Hnew; split; (reflexivity || discriminate).
Qed.

Lemma formatter_outputs_in_step_witness :
  Local.format_results [result_1; result_2] "" [] =
    Ok (nl ++ "---" ++ nl ++ "Title: Test Co Q1" ++ nl
        ++ "URL: https://example.com/q1" ++ nl
        ++ "Content: Revenue rose 10%." ++ nl
        ++ nl ++ "---" ++ nl ++ "Title: Press release" ++ nl
        ++ "URL: https://example.com/pr" ++ nl
        ++ "Content: Guidance unchanged." ++ nl,
        ["[Test Co Q1](https://example.com/q1)";
         "[Press release](https://example.com/pr)"]) /\
  length ["[Test Co Q1](https://example.com/q1)";
          "[Press release](https://example.com/pr)"] = 2.
Proof.
  split; [reflexivity|].
  exact (proj1 (formatter_outputs_in_step [result_1; result_2] _ _ eq_refl)).
Defined.

(** ** Results that lack a field *)

Lemma missing_field_none (result : Local.Result) :
  missing_field result = None <-> has_fields result = true.
Proof.
  unfold missing_field, has_fields.
  destruct (dict_mem result "title"), (dict_mem result "url"),
    (dict_mem result "content"); simpl; split; congruence.
Qed.

Lemma missing_field_raises (result : Local.Result) (k : string) :
  missing_field result = Some k ->
  Local.context_block result = Err (KeyError (repr_key k)).
Proof.
  unfold missing_field, dict_mem, Local.context_block, Local.result_getitem.
  destruct (dict_get result "title") as [title|]; cbn [negb res_bind];
    [|intros [= <-]; reflexivity].
  destruct (dict_get result "url") as [url|]; cbn [negb res_bind];
    [|intros [= <-]; reflexivity].
  destruct (dict_get result "content") as [body|]; cbn [negb res_bind];
    [discriminate | intros [= <-]; reflexivity].
Qed.

Lemma format_results_missing (rs : list Local.Result) (k : string) :
  first_missing_field rs = Some k ->
  forall (context_text : string) (refs0 : list string),
    Local.format_results rs context_text refs0 = Err (KeyError (repr_key k)).
Proof.
  induction rs as [|result rs IH]; [discriminate|].
  cbn [first_missing_field]. intros Hk context_text refs0.
  destruct (missing_field result) as [k'|] eqn:Hm.
  - injection Hk as ->. cbn [Local.format_results].
    now rewrite (missing_field_raises result k Hm).
  - apply missing_field_none in Hm.
    destruct (has_fields_getitem result Hm) as (title & url & body & Ht & Hu & Hb).
    cbn [Local.format_results].
    unfold Local.context_block, Local.citation_ref, Local.result_getitem.
    rewrite Ht, Hu, Hb. cbn [res_bind]. now apply IH.
Qed.

(** X3.  When some result of a successful Tavily call lacks one of the
    fields [title], [url], [content], the loop raises [KeyError] on the
    first such field, nothing formatted so far survives, and [search_web]
    returns no context with the single citation [Search Error: '<field>'];
    the run then stops as for a failed search, without calling the model. *)
Theorem result_without_field_is_search_error :
  forall (w : Local.World) (key model prompt : string) (h : list Turn)
         (response : Local.TavilyResponse) (k : string),
    forallb displayable h = true ->
    str_truthy prompt = true ->
    str_truthy key = true ->
    Local.tavily w key prompt = Ok response ->
    first_missing_field (Local.get_results response) = Some k ->
    (forall s, fst (Local.search_web w prompt key s) =
               Done (None, ["Search Error: '" ++ k ++ "'"])) /\
    exists evs,
      forallb is_render evs = true /\
      run (Local.main w key model (Some prompt)) h =
      (Stopped,
       {| messages := h ++ [user_turn prompt];
          ui := evs ++ local_preamble key prompt ++
            [status_update "❌ Search Failed" "error";
             st_error "Could not retrieve search results."] |}).
Proof.
  intros w key model prompt h response k Hd Hp Hk Hw Hmiss.
  assert (Hs : search_outcome w prompt key =
               (None, ["Search Error: '" ++ k ++ "'"])).
  { unfold search_outcome.
    now rewrite Hw, (format_results_missing _ k Hmiss "" []). }
  split.
  - intros s. now rewrite local_search_web_run, Hs.
  - destruct (local_main_run w key model prompt h Hd Hp) as (evs & Hevs & Hrun).
    exists evs. split; [exact Hevs|]. rewrite Hrun.
    rewrite (local_on_prompt_search_failed w key model prompt);
      [reflexivity | assumption | now rewrite Hs].
Qed.

Lemma result_without_field_is_search_error_witness :
  let w := {| Local.tavily := fun _ _ =>
                Ok {| Local.results :=
                        Some [result_1; [("title", "No link"); ("content", "x")]] |};
              Local.ollama := fun _ _ => three_chunks |} in
  let prompt := "Test Co Q1 earnings" in
  let r := run (Local.main w "tvly-key" "qwen2.5:7b" (Some prompt)) [] in
  first_missing_field
    [result_1; [("title", "No link"); ("content", "x")]] = Some "url" /\
  fst (Local.search_web w prompt "tvly-key" {| messages := []; ui := [] |}) =
    Done (None, ["Search Error: 'url'"]) /\
  fst r = Stopped /\ history_after r = [user_turn prompt].
Proof.
  intros w prompt r.
  destruct (result_without_field_is_search_error w "tvly-key" "qwen2.5:7b"
              prompt []
              {| Local.results :=
                   Some [result_1; [("title", "No link"); ("content", "x")]] |}
              "url" eq_refl eq_refl eq_refl eq_refl eq_refl)
    as (Hsearch & evs & _ & Hrun).
  split; [reflexivity|]. split; [apply Hsearch|].
  unfold r. rewrite Hrun. split; reflexivity.
Defined.

(** X4.  [search_web] never raises and never stops the run: it makes the
    one Tavily call, leaves the history alone, and returns either a context
    with the citations of a call and a formatting that both went through,
    or no context with one citation holding the message of the exception
    that the call or the formatting raised. *)
Theorem search_web_never_raises :
  forall (w : Local.World) (query key : string) (s : Script),
    exists context refs,
      Local.search_web w query key s =
        (Done (context, refs),
         {| messages := messages s; ui := ui s ++ [tavily_search key query] |}) /\
      match context with
      | Some c =>
          exists response,
            Local.tavily w key query = Ok response /\
            Local.format_results (Local.get_results response) "" [] = Ok (c, refs)
      | None =>
          exists e,
            refs = ["Search Error: " ++ str_exn e] /\
            (Local.tavily w key query = Err e \/
             exists response,
               Local.tavily w key query = Ok response /\
               Local.format_results (Local.get_results response) "" [] = Err e)
      end.
Proof.
  intros w query key s.
  exists (fst (search_outcome w query key)), (snd (search_outcome w query key)).
  split; [rewrite local_search_web_run; now destruct (search_outcome w query key)|].
  unfold search_outcome.
  destruct (Local.tavily w key query) as [response|e].
  - destruct (Local.format_results (Local.get_results response) "" [])
      as [[c refs]|e] eqn:Hf; cbn [fst snd].
    + now exists response.
    + exists e. split; [reflexivity|]. right. now exists response.
  - cbn [fst snd]. exists e. split; [reflexivity|]. now left.
Qed.

(** ** Outbound calls of a local run *)

Lemma filter_network_render (evs : list Event) :
  forallb is_render evs = true -> filter is_network evs = [].
Proof.
  induction evs as [|x evs IH]; simpl; [reflexivity|].
  intros H. apply andb_prop in H. destruct H as [Hx Hevs].
  rewrite (IH Hevs). destruct x; simpl in *; congruence.
Qed.

Lemma partial_renders_render (cs : list Local.Chunk) :
  forall acc, forallb is_render (partial_renders acc cs) = true.
Proof. induction cs as [|c cs IH]; intros acc; simpl; [reflexivity | apply IH]. Qed.

Lemma local_sources_render (refs : list string) :
  forallb is_render (local_sources refs) = true.
Proof.
  destruct refs as [|r refs]; [reflexivity|]. unfold local_sources.
  cbn [forallb is_render andb]. generalize (r :: refs). intros l.
  induction l as [|x l IH]; [reflexivity | exact IH].
Qed.

Lemma local_on_prompt_network (w : Local.World) (key model prompt : string)
    (s : Script) :
  exists evs,
    ui (snd (Local.on_prompt w key model prompt s)) = (ui s ++ evs)%list /\
    filter is_network evs =
      if str_truthy key
      then tavily_search key prompt :: generation_calls w key model prompt
      else [].
Proof.
  unfold generation_calls.
  destruct (str_truthy key) eqn:Hk.
  - destruct (search_outcome w prompt key) as [[c|] refs] eqn:Hs.
    + destruct (str_truthy c) eqn:Hc.
      * destruct (Local.failure (Local.ollama w model
                    (Local.analyst_messages prompt c))) as [e|] eqn:Hf.
        -- rewrite (local_on_prompt_stream_failed w key model prompt c
                      refs e s Hk Hs Hc Hf).
           eexists. split; [reflexivity|].
           rewrite !filter_app, (filter_network_render _ (partial_renders_render _ _)).
           reflexivity.
        -- rewrite (local_on_prompt_answered w key model prompt c refs
                      s Hk Hs Hc Hf).
           eexists. split; [reflexivity|].
           rewrite !filter_app, (filter_network_render _ (partial_renders_render _ _)),
             (filter_network_render _ (local_sources_render _)).
           reflexivity.
      * rewrite local_on_prompt_search_failed;
          [| assumption | rewrite Hs; simpl; now rewrite Hc].
        eexists. split; reflexivity.
    + rewrite local_on_prompt_search_failed;
        [| assumption | now rewrite Hs].
      eexists. split; reflexivity.
  - rewrite local_on_prompt_no_key by assumption.
    eexists. split; reflexivity.
Qed.

Lemma local_main_network (w : Local.World) (key model prompt : string)
    (h : list Turn) :
  forallb displayable h = true ->
  str_truthy prompt = true ->
  filter is_network (trace (run (Local.main w key model (Some prompt)) h)) =
    if str_truthy key
    then tavily_search key prompt :: generation_calls w key model prompt
    else [].
Proof.
  intros Hd Hp.
  destruct (local_main_run w key model prompt h Hd Hp) as (evs & Hevs & Hrun).
  destruct (local_on_prompt_network w key model prompt
              {| messages := h; ui := evs |}) as (evs' & Hui & Hnet).
  unfold trace. rewrite Hrun, Hui. cbn [ui].
  now rewrite filter_app, (filter_network_render evs Hevs).
Qed.

Lemma generation_among_network (evs : list Event) :
  existsb is_generation evs = existsb is_generation (filter is_network evs).
Proof.
  induction evs as [|x evs IH]; [reflexivity|].
  destruct x; cbn [existsb filter is_network is_generation orb];
    solve [exact IH | reflexivity].
Qed.

Lemma format_results_context_empty (rs : list Local.Result) (c : string)
    (refs : list string) :
  Local.format_results rs "" [] = Ok (c, refs) -> (c = "" <-> rs = []).
Proof.
  intros Hrun.
  destruct (format_results_inv rs "" [] c refs Hrun)
    as (blocks & new & Hblocks & _ & -> & _).
  cbn [String.append].
  destruct Hblocks as [|result block rs blocks Hb _]; [split; reflexivity|].
  split; [|discriminate]. intros Hc. exfalso.
  apply (block_not_empty result block Hb).
  simpl in Hc. destruct block; [reflexivity | discriminate Hc].
Qed.

(** X5.  Whatever the history and whatever the outside world answers, a
    local run makes no outbound call, or the Tavily search alone, or the
    search followed by one model call; the model is called with the selected
    model and with the messages built from the prompt and the context of a
    search and formatting that went through. *)
Theorem local_calls_in_order :
  forall (w : Local.World) (key model : string) (chat_input : option string)
         (h : list Turn),
    let calls :=
      filter is_network (trace (run (Local.main w key model chat_input) h)) in
    calls = [] \/
    exists prompt,
      chat_input = Some prompt /\
      (calls = [tavily_search key prompt] \/
       exists response c refs,
         Local.tavily w key prompt = Ok response /\
         Local.format_results (Local.get_results response) "" [] = Ok (c, refs) /\
         calls = [tavily_search key prompt;
                  ollama_chat model (Local.analyst_messages prompt c)]).
Proof.
  intros w key model chat_input h calls. subst calls. unfold trace.
  destruct (local_main_cases w key model chat_input h)
    as [(evs & Hevs & Hs) | (prompt & evs & -> & Hp & Hevs & Hrun)].
  - left. rewrite Hs. now apply filter_network_render.
  - rewrite Hrun.
    destruct (local_on_prompt_network w key model prompt
                {| messages := h; ui := evs |}) as (evs' & -> & Hnet).
    cbn [ui]. rewrite filter_app, (filter_network_render evs Hevs), Hnet.
    cbn [app]. destruct (str_truthy key); [|now left].
    right. exists prompt. split; [reflexivity|].
    unfold generation_calls, search_outcome.
    destruct (Local.tavily w key prompt) as [response|e]; [|now left].
    destruct (Local.format_results (Local.get_results response) "" [])
      as [[c refs]|e] eqn:Hf; [|now left].
    destruct (str_truthy c); [|now left].
    right. now exists response, c, refs.
Qed.

(** X6.  With a key, a prompt and a displayable history, the model is
    called exactly when the search succeeded, every result could be
    formatted, and there was at least one result. *)
Theorem model_called_iff_results :
  forall (w : Local.World) (key model prompt : string) (h : list Turn),
    forallb displayable h = true ->
    str_truthy prompt = true ->
    str_truthy key = true ->
    (existsb is_generation
       (trace (run (Local.main w key model (Some prompt)) h)) = true <->
     exists response c refs,
       Local.tavily w key prompt = Ok response /\
       Local.format_results (Local.get_results response) "" [] = Ok (c, refs) /\
       Local.get_results response <> []).
Proof.
  intros w key model prompt h Hd Hp Hk.
  rewrite generation_among_network,
    (local_main_network w key model prompt h Hd Hp), Hk.
  unfold generation_calls, search_outcome.
  destruct (Local.tavily w key prompt) as [response|e].
  - destruct (Local.format_results (Local.get_results response) "" [])
      as [[c refs]|e] eqn:Hf.
    + pose proof (format_results_context_empty _ c refs Hf) as Hempty.
      destruct (str_truthy c) eqn:Hc.
      * split; [intros _ | reflexivity].
        exists response, c, refs.
        split; [reflexivity|]. split; [exact Hf|].
        intros Hnil. apply Hempty in Hnil. apply str_truthy_true in Hc.
        contradiction.
      * split; [discriminate|].
        intros (response' & c' & refs' & [= <-] & Hf' & Hne).
        rewrite Hf in Hf'. injection Hf' as <- <-.
        apply str_truthy_false in Hc. apply Hempty in Hc. contradiction.
    + split; [discriminate|].
      intros (response' & c' & refs' & [= <-] & Hf' & _). congruence.
  - split; [discriminate|].
    intros (response' & c' & refs' & Hw & _). discriminate Hw.
Qed.

Lemma model_called_iff_results_witness :
  let prompt := "Test Co Q1 earnings" in
  forallb displayable earlier_history = true /\
  str_truthy prompt = true /\
  str_truthy "tvly-key" = true /\
  (existsb is_generation
     (trace (run (Local.main two_results_world "tvly-key" "qwen2.5:7b"
                    (Some prompt)) earlier_history)) = true <->
   exists response c refs,
     Local.tavily two_results_world "tvly-key" prompt = Ok response /\
     Local.format_results (Local.get_results response) "" [] = Ok (c, refs) /\
     Local.get_results response <> []).
Proof.
  intros prompt. do 3 (split; [reflexivity|]).
  apply (model_called_iff_results two_results_world "tvly-key" "qwen2.5:7b"
           prompt earlier_history); reflexivity.
Defined.

(** ** Streaming *)

Lemma partial_renders_prefixes (cs : list Local.Chunk) :
  forall acc : string,
    partial_renders acc cs =
    map (fun k =>
           placeholder_markdown
             (VStr ((acc ++ concatenation
                              (firstn k (map Local.message_content cs)))
                    ++ Local.cursor)))
        (seq 1 (length cs)).
Proof.
  induction cs as [|c cs IH]; intros acc; [reflexivity|].
  cbn [partial_renders length seq map firstn concatenation fold_right].
  rewrite append_nil_r. f_equal.
  rewrite <- (seq_shift (length cs) 1), map_map, IH. apply map_ext. intros k.
  cbn [firstn map]. unfold concatenation. cbn [fold_right].
  now rewrite (append_assoc acc).
Qed.

(** X7.  While a stream is drained, the placeholder is redrawn once per
    chunk, and the k-th redraw shows the first k chunks put end to end,
    followed by the cursor mark: every intermediate display is a prefix of
    the final answer, and the history is not touched by the loop. *)
Theorem stream_renders_prefixes :
  forall (cs : list Local.Chunk) (s : Script),
    snd (Local.drain cs "" s) =
    {| messages := messages s;
       ui := ui s ++
         map (fun k =>
                placeholder_markdown
                  (VStr (concatenation (firstn k (map Local.message_content cs))
                         ++ Local.cursor)))
             (seq 1 (length cs)) |}.
Proof.
  intros cs s. rewrite local_drain_run. cbn [snd].
  now rewrite partial_renders_prefixes.
Qed.

(** X8.  When the model's stream raises after some chunks, the exception
    is not caught: the run ends with it, the chunks received so far have
    been drawn, and the history keeps the user's turn with no assistant
    turn after it. *)
Theorem broken_stream_leaves_user_turn :
  forall (w : Local.World) (key model prompt : string) (h : list Turn)
         (response : Local.TavilyResponse) (c : string) (refs : list string)
         (cs : list Local.Chunk) (e : exn),
    forallb displayable h = true ->
    str_truthy prompt = true ->
    str_truthy key = true ->
    Local.tavily w key prompt = Ok response ->
    Local.format_results (Local.get_results response) "" [] = Ok (c, refs) ->
    str_truthy c = true ->
    Local.ollama w model (Local.analyst_messages prompt c) =
      {| Local.chunks := cs; Local.failure := Some e |} ->
    exists evs,
      forallb is_render evs = true /\
      run (Local.main w key model (Some prompt)) h =
      (Uncaught e,
       {| messages := h ++ [user_turn prompt];
          ui := evs ++ local_preamble key prompt ++
            [status_write "Context retrieved. Analyzing with local Qwen model...";
             st_empty;
             ollama_chat model (Local.analyst_messages prompt c)] ++
            partial_renders "" cs |}).
Proof.
  intros w key model prompt h response c refs cs e Hd Hp Hk Hw Hf Hc Hstream.
  destruct (local_main_run w key model prompt h Hd Hp) as (evs & Hevs & Hrun).
  exists evs. split; [exact Hevs|]. rewrite Hrun.
  rewrite (local_on_prompt_stream_failed w key model prompt c refs e);
    try assumption.
  - rewrite Hstream. reflexivity.
  - now apply (search_outcome_found w prompt key response).
  - rewrite Hstream. reflexivity.
Qed.

Lemma broken_stream_leaves_user_turn_witness :
  let w := broken_stream_world in
  let prompt := "Test Co Q1 earnings" in
  let response := {| Local.results := Some [result_1; result_2] |} in
  let r := run (Local.main w "tvly-key" "qwen2.5:7b" (Some prompt))
             earlier_history in
  exists c refs,
    forallb displayable earlier_history = true /\
    str_truthy prompt = true /\
    str_truthy "tvly-key" = true /\
    Local.tavily w "tvly-key" prompt = Ok response /\
    Local.format_results (Local.get_results response) "" [] = Ok (c, refs) /\
    str_truthy c = true /\
    Local.ollama w "qwen2.5:7b" (Local.analyst_messages prompt c) =
      broken_stream /\
    fst r = Uncaught (LibraryError "connection reset") /\
    history_after r = (earlier_history ++ [user_turn prompt])%list /\
    In (placeholder_markdown (VStr ("Revenue" ++ Local.cursor))) (trace r).
Proof.
  intros w prompt response r.
  destruct (Local.format_results (Local.get_results response) "" [])
    as [[c refs]|e] eqn:Hf; [|discriminate Hf].
  exists c, refs.
  assert (Hc : str_truthy c = true) by (vm_compute in Hf; now inversion Hf).
  do 5 (split; [reflexivity|]). split; [exact Hc|]. split; [reflexivity|].
  destruct (broken_stream_leaves_user_turn w "tvly-key" "qwen2.5:7b" prompt
              earlier_history response c refs (Local.chunks broken_stream)
              (LibraryError "connection reset")
              eq_refl eq_refl eq_refl eq_refl Hf Hc eq_refl)
    as (evs & _ & Hrun).
  unfold r, history_after, trace. rewrite Hrun. cbn [fst snd messages ui].
  split; [reflexivity|]. split; [reflexivity|].
  apply in_or_app. right. apply in_or_app. right.
  apply in_or_app. right. right. now left.
Defined.

(** ** Outbound calls and answers of a remote run *)

(** X9.  Whatever the history and whatever the endpoint answers, a remote
    run sends at most one request, with no retry after a failure; the
    request goes to the chat-completions URL with the key as bearer token,
    and none is sent when the key is empty, when the clear button was
    pressed or when no prompt was submitted. *)
Theorem remote_one_request :
  forall (w : Remote.World) (key : string) (model : Remote.Model)
         (clear_pressed : bool) (chat_input : option string) (h : list Turn),
    let calls :=
      filter is_network
        (trace (run (Remote.main w key model clear_pressed chat_input) h)) in
    calls = [] \/
    exists prompt payload,
      clear_pressed = false /\ chat_input = Some prompt /\ key <> "" /\
      calls =
        [requests_post "https://api.perplexity.ai/chat/completions"
           [("Authorization", "Bearer " ++ key);
            ("Content-Type", "application/json")]
           payload].
Proof.
  intros w key model clear_pressed chat_input h calls. subst calls.
  destruct (remote_requests w key model clear_pressed chat_input h)
    as [Hnone | (prompt & -> & -> & _ & Hk & Hone)].
  - now left.
  - right. exists prompt. eexists. repeat split.
    + now apply str_truthy_true.
    + exact Hone.
Qed.

(** Reading an answer that is all there. *)
Lemma remote_read_answer_done (result full cs : value) (s : Script) :
  answer_content result = Ok full ->
  py_get result "citations" (VList []) = Ok cs ->
  displayable (assistant_turn full cs) = true ->
  exists evs,
    forallb is_render evs = true /\
    Remote.read_answer result s =
      (Done (full, cs),
       {| messages := messages s;
          ui := ui s ++ placeholder_markdown full :: evs |}).
Proof.
  intros Hfull Hcs Hshow.
  revert Hfull. unfold Remote.read_answer, answer_content, bind.
  destruct (getitem result "choices") as [choices|e]; cbn [lift res_bind];
    [|discriminate].
  unfold ret at 1.
  destruct (getitem0 choices) as [choice|e]; cbn [lift res_bind];
    [|discriminate].
  unfold ret at 1.
  destruct (getitem choice "message") as [message|e]; cbn [lift res_bind];
    [|discriminate].
  unfold ret at 1.
  destruct (getitem message "content") as [full'|e]; cbn [lift];
    [|discriminate].
  intros [= ->]. unfold ret at 1. rewrite Hcs. cbn [lift].
  unfold ret at 1. unfold emit at 1. cbn [messages ui].
  revert Hshow. unfold displayable. cbn [citations assistant_turn].
  destruct (truthy cs); cbn [when].
  - destruct (py_iter cs) as [l|e]; [intros _|discriminate].
    unfold bind, emit at 1. cbn [messages ui lift]. unfold ret at 1.
    match goal with
    | |- context [for_each_enumerate l 1 ?b ?st] =>
        destruct (quiet_done (for_each_enumerate l 1 b) st tt)
          as (evs & Hevs & Hloop);
        [ apply quiet_for_each_enumerate; intros i x;
          apply quiet_emit; reflexivity
        | apply (for_each_enumerate_emit
                   (fun i citation =>
                      st_markdown_f ("[" ++ str_nat i ++ "] ") citation))
        | rewrite Hloop ]
    end.
    unfold ret. cbn [messages ui].
    exists (st_expander "📚 Verified Sources" :: evs).
    split; [exact Hevs|]. rewrite <- ?app_assoc. reflexivity.
  - intros _. unfold ret. exists []. split; reflexivity.
Qed.

(** Reading an answer whose citations cannot be listed. *)
Lemma remote_read_answer_not_iterable (result full cs : value) (e : exn)
    (s : Script) :
  answer_content result = Ok full ->
  py_get result "citations" (VList []) = Ok cs ->
  truthy cs = true ->
  py_iter cs = Err e ->
  Remote.read_answer result s =
    (Uncaught e,
     {| messages := messages s;
        ui := ui s ++ [placeholder_markdown full;
                       st_expander "📚 Verified Sources"] |}).
Proof.
  intros Hfull Hcs Ht Hi.
  revert Hfull. unfold Remote.read_answer, answer_content, bind.
  destruct (getitem result "choices") as [choices|e']; cbn [lift res_bind];
    [|discriminate].
  unfold ret at 1.
  destruct (getitem0 choices) as [choice|e']; cbn [lift res_bind];
    [|discriminate].
  unfold ret at 1.
  destruct (getitem choice "message") as [message|e']; cbn [lift res_bind];
    [|discriminate].
  unfold ret at 1.
  destruct (getitem message "content") as [full'|e']; cbn [lift];
    [|discriminate].
  intros [= ->]. unfold ret at 1. rewrite Hcs. cbn [lift].
  unfold ret at 1. unfold emit at 1. cbn [messages ui].
  rewrite Ht. cbn [when]. unfold bind, emit at 1. cbn [messages ui].
  rewrite Hi. cbn [lift]. unfold raise. now rewrite <- app_assoc.
Qed.

(** X10.  With a key, a prompt and a displayable history, when the
    exchange goes through and the parsed body is a dictionary that holds no
    ["error"] key and an answer under [choices[0].message.content], the
    answer is drawn and no error is shown.  If the body's ["citations"]
    entry is missing, falsy, or something [for] can iterate over, the run
    ends normally with one assistant turn appended after the user's,
    carrying that answer and that entry (the empty list when the body has
    none).  If the entry is truthy and cannot be iterated over, listing it
    raises [TypeError], which nothing catches, and the history keeps the
    user's turn with no assistant turn after it. *)
Theorem remote_answer_is_stored :
  forall (w : Remote.World) (key : string) (model : Remote.Model)
         (prompt : string) (h : list Turn) (response : Remote.Response)
         (d : list (string * value)) (full : value),
    forallb displayable h = true ->
    str_truthy prompt = true ->
    str_truthy key = true ->
    Remote.post w Remote.API_URL (Remote.request_headers key)
      (Remote.request_payload (request_messages h prompt)
         (Remote.model_name model)) = Ok response ->
    Remote.raise_for_status response = Ok tt ->
    Remote.json response = Ok (VDict d) ->
    dict_get d "error" = None ->
    answer_content (VDict d) = Ok full ->
    let cs := match dict_get d "citations" with
              | Some c => c
              | None => VList []
              end in
    let r := run (Remote.main w key model false (Some prompt)) h in
    In (placeholder_markdown full) (trace r) /\
    existsb is_error (trace r) = false /\
    match (if truthy cs then py_iter cs else Ok []) with
    | Ok _ =>
        fst r = Done tt /\
        history_after r =
          (h ++ [{| role := "user"; content := VStr prompt;
                    citations := None |};
                 {| role := "assistant"; content := full;
                    citations := Some cs |}])%list
    | Err e =>
        fst r = Uncaught e /\
        history_after r =
          (h ++ [{| role := "user"; content := VStr prompt;
                    citations := None |}])%list
    end.
Proof.
  intros w key model prompt h response d full Hd Hp Hk Hpost Hst Hjson Herr
    Hfull cs r.
  destruct (remote_main_run w key model prompt h Hd Hp) as (evs & Hevs & Hrun).
  assert (Hq : query_outcome w (request_messages h prompt) key
                 (Remote.model_name model) = VDict d).
  { unfold query_outcome. now rewrite Hpost, Hst, Hjson. }
  assert (Hcs : py_get (VDict d) "citations" (VList []) = Ok cs).
  { unfold cs. cbn [py_get]. now destruct (dict_get d "citations"). }
  set (sent := requests_post Remote.API_URL (Remote.request_headers key)
                 (Remote.request_payload (request_messages h prompt)
                    (Remote.model_name model))).
  assert (Hread : forall o evs',
    (forall st, Remote.read_answer (VDict d) st =
                (o, {| messages := messages st;
                       ui := ui st ++ placeholder_markdown full :: evs' |})) ->
    Remote.on_prompt w key model prompt {| messages := h; ui := evs |} =
    (match o with
     | Done (full', cs') =>
         (Done tt,
          {| messages := (h ++ [user_turn prompt]) ++
                         [assistant_turn full' cs'];
             ui := (evs ++ remote_preamble prompt ++ [sent]) ++
                   placeholder_markdown full :: evs' |})
     | Stopped =>
         (Stopped,
          {| messages := h ++ [user_turn prompt];
             ui := (evs ++ remote_preamble prompt ++ [sent]) ++
                   placeholder_markdown full :: evs' |})
     | Uncaught e =>
         (Uncaught e,
          {| messages := h ++ [user_turn prompt];
             ui := (evs ++ remote_preamble prompt ++ [sent]) ++
                   placeholder_markdown full :: evs' |})
     end)).
  { intros o evs' Hst'. run_to_query Hk. fold (request_messages h prompt).
    rewrite Hq. unfold bind at 1. cbn [py_contains lift]. unfold dict_mem.
    rewrite Herr. unfold ret at 1. unfold bind at 1. rewrite Hst'.
    cbn [messages ui]. unfold remote_preamble, sent.
    destruct o as [[full' cs']| |e]; unfold messages_append;
      cbn [messages ui]; rewrite <- !app_assoc; reflexivity. }
  assert (Hshown : forall tail,
    forallb is_render tail = true ->
    In (placeholder_markdown full)
       ((evs ++ remote_preamble prompt ++ [sent]) ++
        placeholder_markdown full :: tail) /\
    existsb is_error
       ((evs ++ remote_preamble prompt ++ [sent]) ++
        placeholder_markdown full :: tail) = false).
  { intros tail Htail. split.
    - apply in_or_app. right. now left.
    - rewrite !existsb_app. cbn [existsb is_error remote_preamble orb sent].
      now rewrite (render_not_error evs Hevs), (render_not_error tail Htail). }
  unfold r, history_after, trace. rewrite Hrun.
  destruct (truthy cs) eqn:Ht.
  - destruct (py_iter cs) as [l|e] eqn:Hi.
    + assert (Hshow : displayable (assistant_turn full cs) = true).
      { unfold displayable. cbn [citations assistant_turn]. now rewrite Ht, Hi. }
      destruct (remote_read_answer_done (VDict d) full cs
                  {| messages := h ++ [user_turn prompt];
                     ui := evs ++ remote_preamble prompt ++ [sent] |}
                  Hfull Hcs Hshow)
        as (evs' & Hevs' & Hone).
      assert (Hon :
        Remote.on_prompt w key model prompt {| messages := h; ui := evs |} =
        (Done tt,
         {| messages := (h ++ [user_turn prompt]) ++ [assistant_turn full cs];
            ui := (evs ++ remote_preamble prompt ++ [sent]) ++
                  placeholder_markdown full :: evs' |})).
      { run_to_query Hk. fold (request_messages h prompt).
        rewrite Hq. unfold bind at 1. cbn [py_contains lift]. unfold dict_mem.
        rewrite Herr. unfold ret at 1. unfold bind at 1.
        fold sent.
        replace (((((((evs ++ [st_chat_message "user"]) ++
                      [st_markdown (VStr prompt)]) ++
                     [st_chat_message "assistant"]) ++ [st_empty]) ++
                   [st_spinner "Analyzing web data..."]) ++ [sent])%list)
          with (evs ++ remote_preamble prompt ++ [sent])%list
          by (unfold remote_preamble; now rewrite <- !app_assoc).
        rewrite Hone. unfold messages_append. reflexivity. }
      rewrite Hon. cbn [fst snd messages ui].
      destruct (Hshown evs' Hevs') as (Hin & Hnoerr).
      split; [exact Hin|]. split; [exact Hnoerr|].
      split; [reflexivity|]. now rewrite <- app_assoc.
    + assert (Hon :
        Remote.on_prompt w key model prompt {| messages := h; ui := evs |} =
        (Uncaught e,
         {| messages := h ++ [user_turn prompt];
            ui := (evs ++ remote_preamble prompt ++ [sent]) ++
                  [placeholder_markdown full;
                   st_expander "📚 Verified Sources"] |})).
      { apply (Hread (Uncaught e) [st_expander "📚 Verified Sources"]).
        intros st.
        apply (remote_read_answer_not_iterable (VDict d) full cs e st);
          assumption. }
      rewrite Hon. cbn [fst snd messages ui].
      destruct (Hshown [st_expander "📚 Verified Sources"] eq_refl)
        as (Hin & Hnoerr).
      split; [exact Hin|]. split; [exact Hnoerr|]. split; reflexivity.
  - assert (Hshow : displayable (assistant_turn full cs) = true).
    { unfold displayable. cbn [citations assistant_turn]. now rewrite Ht. }
    assert (Hnone : forall st,
              Remote.read_answer (VDict d) st =
              (Done (full, cs),
               {| messages := messages st;
                  ui := ui st ++ placeholder_markdown full :: [] |})).
    { intros st.
      destruct (remote_read_answer_done (VDict d) full cs st Hfull Hcs Hshow)
        as (evs' & Hevs' & Hone).
      rewrite Hone. repeat f_equal.
      revert Hone. unfold Remote.read_answer, bind.
      destruct (getitem (VDict d) "choices") as [x1|?]; cbn [lift];
        [|unfold raise; discriminate].
      unfold ret at 1.
      destruct (getitem0 x1) as [x2|?]; cbn [lift];
        [|unfold raise; discriminate].
      unfold ret at 1.
      destruct (getitem x2 "message") as [x3|?]; cbn [lift];
        [|unfold raise; discriminate].
      unfold ret at 1.
      destruct (getitem x3 "content") as [x4|?]; cbn [lift];
        [|unfold raise; discriminate].
      unfold ret at 1. rewrite Hcs. cbn [lift]. unfold ret at 1.
      unfold emit at 1. cbn [messages ui]. rewrite Ht. cbn [when].
      unfold ret. intros [= _ Hui].
      apply app_inv_head in Hui. now injection Hui as <-. }
    rewrite (Hread (Done (full, cs)) [] Hnone). cbn [fst snd messages ui].
    destruct (Hshown [] eq_refl) as (Hin & Hnoerr).
    split; [exact Hin|]. split; [exact Hnoerr|].
    split; [reflexivity|]. now rewrite <- app_assoc.
Qed.

Lemma remote_answer_is_stored_witness :
  let prompt := "Analyze Apple's latest 10-K risks" in
  let response := {| Remote.raise_for_status := Ok tt;
                     Remote.json := Ok completion |} in
  let r := run (Remote.main answering_world "pplx-key" Remote.sonar false
                  (Some prompt)) earlier_history in
  forallb displayable earlier_history = true /\
  str_truthy prompt = true /\
  str_truthy "pplx-key" = true /\
  Remote.post answering_world Remote.API_URL (Remote.request_headers "pplx-key")
    (Remote.request_payload (request_messages earlier_history prompt) "sonar") =
    Ok response /\
  answer_content completion = Ok (VStr "Margins held.") /\
  In (placeholder_markdown (VStr "Margins held.")) (trace r) /\
  existsb is_error (trace r) = false /\
  fst r = Done tt /\
  history_after r =
    (earlier_history ++
     [{| role := "user"; content := VStr prompt; citations := None |};
      {| role := "assistant"; content := VStr "Margins held.";
         citations := Some (VList [VStr "https://example.com/10k"]) |}])%list.
Proof.
  intros prompt response r.
  do 5 (split; [reflexivity|]).
  exact (remote_answer_is_stored answering_world "pplx-key" Remote.sonar prompt
           earlier_history response
           [("choices",
             VList [VDict [("message",
                            VDict [("role", VStr "assistant");
                                   ("content", VStr "Margins held.")])]]);
            ("citations", VList [VStr "https://example.com/10k"])]
           (VStr "Margins held.")
           eq_refl eq_refl eq_refl eq_refl eq_refl eq_refl eq_refl eq_refl).
Defined.



(** ** The shape of a stored conversation *)

Lemma search_outcome_refs (w : Local.World) (query key c : string)
    (refs : list string) :
  search_outcome w query key = (Some c, refs) ->
  str_truthy c = true ->
  exists ref refs', refs = ref :: refs'.
Proof.
  unfold search_outcome. intros Hs Hc.
  destruct (Local.tavily w key query) as [response|e]; [|discriminate Hs].
  destruct (Local.format_results (Local.get_results response) "" [])
    as [[c' refs']|e] eqn:Hf; [|discriminate Hs].
  injection Hs as -> ->.
  destruct (format_results_inv _ "" [] c refs Hf)
    as (blocks & new & Hblocks & Hnew & -> & ->).
  destruct Hnew as [|result ref rs new _ _].
  - inversion Hblocks. subst. discriminate Hc.
  - now exists ref, new.
Qed.

(** What the local handler can do to the history, with the shape of the
    assistant turn it may append. *)
Lemma local_on_prompt_shape (w : Local.World) (key model prompt : string)
    (s : Script) :
  let h' := messages (snd (Local.on_prompt w key model prompt s)) in
  (str_truthy key = false /\ h' = messages s) \/
  (str_truthy key = true /\ h' = (messages s ++ [user_turn prompt])%list) \/
  (str_truthy key = true /\
   exists answer cites,
     local_answer answer cites /\
     h' = (messages s ++ [user_turn prompt; assistant_turn answer cites])%list).
Proof.
  intros h'. subst h'.
  destruct (str_truthy key) eqn:Hk.
  - destruct (search_outcome w prompt key) as [[c|] refs] eqn:Hs.
    + destruct (str_truthy c) eqn:Hc.
      * destruct (Local.failure (Local.ollama w model
                    (Local.analyst_messages prompt c))) as [e|] eqn:Hf.
        -- right. left. split; [reflexivity|].
           now rewrite (local_on_prompt_stream_failed w key model prompt c
                          refs e s Hk Hs Hc Hf).
        -- right. right. split; [reflexivity|].
           destruct (search_outcome_refs w prompt key c refs Hs Hc)
             as (ref & refs' & ->).
           rewrite (local_on_prompt_answered w key model prompt c _
                      s Hk Hs Hc Hf).
           eexists. eexists. split; [|reflexivity].
           eexists. now exists ref, refs'.
      * right. left. split; [reflexivity|].
        rewrite local_on_prompt_search_failed; auto.
        rewrite Hs. simpl. now rewrite Hc.
    + right. left. split; [reflexivity|].
      rewrite local_on_prompt_search_failed; auto. now rewrite Hs.
  - left. split; [reflexivity|]. rewrite local_on_prompt_no_key; auto.
Qed.

(** X12.  The history of a local session is a sequence of exchanges: the
    user's turn alone, when its search or its generation failed, or the
    user's turn followed by the assistant turn answering it; and every
    stored assistant turn holds a text together with at least one
    reference. *)
Theorem local_history_shape :
  forall h : list Turn, local_reachable h -> exchanges local_answer h.
Proof.
  induction 1 as [|h w key model chat_input _ IH]; [constructor|].
  unfold history_after.
  destruct (local_main_cases w key model chat_input h)
    as [(evs & _ & Hs) | (prompt & evs & _ & _ & _ & Hrun)].
  - now rewrite Hs.
  - rewrite Hrun.
    destruct (local_on_prompt_shape w key model prompt
                {| messages := h; ui := evs |})
      as [(_ & H) | [(_ & H) | (_ & answer & cites & Hok & H)]];
      cbn [messages] in H; rewrite H.
    + exact IH.
    + now constructor.
    + now constructor.
Qed.

Lemma local_history_shape_witness :
  local_reachable
    [user_turn "Test Co Q1 earnings";
     assistant_turn (VStr "Revenue up 10%.")
       (VList [VStr "[Test Co Q1](https://example.com/q1)";
               VStr "[Press release](https://example.com/pr)"])] /\
  exchanges local_answer
    [user_turn "Test Co Q1 earnings";
     assistant_turn (VStr "Revenue up 10%.")
       (VList [VStr "[Test Co Q1](https://example.com/q1)";
               VStr "[Press release](https://example.com/pr)"])].
Proof.
  assert (Hreach : local_reachable
            [user_turn "Test Co Q1 earnings";
             assistant_turn (VStr "Revenue up 10%.")
               (VList [VStr "[Test Co Q1](https://example.com/q1)";
                       VStr "[Press release](https://example.com/pr)"])]).
  { exact (local_rerun [] two_results_world "tvly-key" "qwen2.5:7b"
             (Some "Test Co Q1 earnings") local_start). }
  split; [exact Hreach | exact (local_history_shape _ Hreach)].
Defined.

(** The histories of a remote session are sequences of exchanges. *)
Lemma remote_history_shape_aux (h : list Turn) :
  remote_reachable h -> exchanges remote_answer h.
Proof.
  induction 1 as [|h w key model clear_pressed chat_input _ IH]; [constructor|].
  unfold history_after.
  destruct (remote_main_cases w key model clear_pressed chat_input h)
    as [(evs & _ & Hs) | [(_ & Hs) | (prompt & evs & _ & _ & _ & _ & Hrun)]].
  - now rewrite Hs.
  - rewrite Hs. constructor.
  - rewrite Hrun. destruct (str_truthy key) eqn:Hk.
    + destruct (remote_on_prompt_run w key model prompt
                  {| messages := h; ui := evs |} Hk)
        as (o & new & tail & Hon & _ & Hcases).
      cbn [messages ui] in Hon, Hcases. rewrite Hon. cbn [snd messages].
      destruct Hcases as [(-> & _) | [(_ & _ & err & _ & _ & ->) |
                                      (_ & _ & full & cs & _ & _ & Hshow & ->)]].
      * rewrite app_nil_r. now constructor.
      * rewrite <- app_assoc. now constructor.
      * rewrite <- app_assoc. now constructor.
    + now rewrite remote_on_prompt_no_key.
Qed.

(** X13.  The history of a remote session is a sequence of exchanges
    too: the user's turn alone, when reading the answer raised, or the
    user's turn followed by one assistant turn whose citations the display
    loop of the next run can show. *)
Theorem remote_history_shape :
  forall h : list Turn, remote_reachable h -> exchanges remote_answer h.
Proof. exact remote_history_shape_aux. Qed.

Lemma remote_history_shape_witness :
  let h := [user_turn "Analyze Apple's latest 10-K risks";
            assistant_turn (VStr "Margins held.")
              (VList [VStr "https://example.com/10k"])] in
  remote_reachable h /\ exchanges remote_answer h.
Proof.
  intros h.
  assert (Hreach : remote_reachable h).
  { exact (remote_rerun [] answering_world "pplx-key" Remote.sonar false
             (Some "Analyze Apple's latest 10-K risks") remote_start). }
  split; [exact Hreach | exact (remote_history_shape _ Hreach)].
Defined.

Lemma exchanges_roles (ok : value -> value -> Prop) (h : list Turn) :
  exchanges ok h ->
  Forall (fun t => role t = "user" \/ role t = "assistant") h.
Proof.
  induction 1 as [|h prompt _ IH|h prompt answer cites _ IH _].
  - constructor.
  - apply Forall_app. split; [exact IH|]. repeat constructor.
  - apply Forall_app. split; [exact IH|].
    constructor; [now left|]. constructor; [now right | constructor].
Qed.

(** X14.  In a remote session, every request carries exactly one system
    message, at the head of its messages; all the messages after it have
    the role ["user"] or ["assistant"], since no stored turn ever has
    another role. *)
Theorem request_has_one_system_message :
  forall (h : list Turn) (w : Remote.World) (key : string)
         (model : Remote.Model) (clear_pressed : bool)
         (chat_input : option string)
         (url : string) (headers : list (string * string)) (payload : value),
    remote_reachable h ->
    In (requests_post url headers payload)
       (trace (run (Remote.main w key model clear_pressed chat_input) h)) ->
    exists rest,
      payload =
        VDict
          [("model", VStr (Remote.model_name model));
           ("messages",
            VList (VDict [("role", VStr "system");
                          ("content", VStr Remote.system_instruction)]
                   :: rest));
           ("return_citations", VBool true)] /\
      Forall (fun m => has_role "user" m \/ has_role "assistant" m) rest.
Proof.
  intros h w key model clear_pressed chat_input url headers payload Hreach Hin.
  assert (Hnet : In (requests_post url headers payload)
                   (filter is_network
                      (trace (run (Remote.main w key model clear_pressed
                                     chat_input) h))))
    by (apply filter_In; split; [exact Hin | reflexivity]).
  destruct (remote_requests w key model clear_pressed chat_input h)
    as [Hnone | (prompt & _ & _ & _ & _ & Hone)].
  - rewrite Hnone in Hnet. destruct Hnet.
  - rewrite Hone in Hnet. destruct Hnet as [Heq | []].
    injection Heq as _ _ <-.
    exists (map Remote.api_message (h ++ [user_turn prompt])).
    split; [reflexivity|].
    pose proof (exchanges_roles _ _
                  (exchanges_asked _ h prompt (remote_history_shape_aux h Hreach)))
      as Hroles.
    induction Hroles as [|t ts [Hr | Hr] _ IH]; [constructor| |];
      (constructor; [|exact IH]); unfold has_role, Remote.api_message;
      rewrite Hr; [left | right]; now exists (content t).
Qed.

Lemma request_has_one_system_message_witness :
  let prompt := "Analyze Apple's latest 10-K risks" in
  let payload :=
    Remote.request_payload (request_messages [] prompt) "sonar" in
  remote_reachable [] /\
  In (requests_post Remote.API_URL (Remote.request_headers "pplx-key") payload)
     (trace (run (Remote.main answering_world "pplx-key" Remote.sonar false
                    (Some prompt)) [])) /\
  exists rest,
    payload =
      VDict
        [("model", VStr "sonar");
         ("messages",
          VList (VDict [("role", VStr "system");
                        ("content", VStr Remote.system_instruction)]
                 :: rest));
         ("return_citations", VBool true)] /\
    Forall (fun m => has_role "user" m \/ has_role "assistant" m) rest.
Proof.
  intros prompt payload.
  assert (Hin : In (requests_post Remote.API_URL
                      (Remote.request_headers "pplx-key") payload)
                  (trace (run (Remote.main answering_world "pplx-key"
                                 Remote.sonar false (Some prompt)) []))).
  { vm_compute. do 5 right. left. reflexivity. }
  split; [exact remote_start|]. split; [exact Hin|].
  exact (request_has_one_system_message [] answering_world "pplx-key"
           Remote.sonar false (Some prompt) Remote.API_URL
           (Remote.request_headers "pplx-key") payload remote_start Hin).
Defined.

(** ** The user's turn *)

(** X15.  In both variants, once the key and the prompt are there, the
    user's turn is appended before anything is asked of the outside world
    and it stays: whatever the search, the model or the endpoint do, the
    history after the run is the one before it, then the user's turn, then
    at most one assistant turn. *)
Theorem user_turn_is_kept :
  forall (lw : Local.World) (rw : Remote.World) (key selected_model : string)
         (model : Remote.Model) (prompt : string) (h : list Turn),
    forallb displayable h = true ->
    str_truthy prompt = true ->
    str_truthy key = true ->
    let l := history_after
               (run (Local.main lw key selected_model (Some prompt)) h) in
    let r := history_after
               (run (Remote.main rw key model false (Some prompt)) h) in
    (l = (h ++ [user_turn prompt])%list \/
     exists answer cites,
       l = (h ++ [user_turn prompt; assistant_turn answer cites])%list) /\
    (r = (h ++ [user_turn prompt])%list \/
     exists answer cites,
       r = (h ++ [user_turn prompt; assistant_turn answer cites])%list).
Proof.
  intros lw rw key selected_model model prompt h Hd Hp Hk l r. split.
  - subst l. unfold history_after.
    destruct (local_main_run lw key selected_model prompt h Hd Hp)
      as (evs & _ & Hrun).
    rewrite Hrun.
    destruct (local_on_prompt_shape lw key selected_model prompt
                {| messages := h; ui := evs |})
      as [(Hno & _) | [(_ & H) | (_ & answer & cites & _ & H)]];
      [congruence | | ]; cbn [messages] in H.
    + now left.
    + right. now exists answer, cites.
  - subst r. unfold history_after.
    destruct (remote_main_run rw key model prompt h Hd Hp) as (evs & _ & Hrun).
    rewrite Hrun.
    destruct (remote_on_prompt_run rw key model prompt
                {| messages := h; ui := evs |} Hk)
      as (o & new & tail & Hon & _ & Hcases).
    cbn [messages ui] in Hon, Hcases. rewrite Hon. cbn [snd messages].
    destruct Hcases as [(-> & _) | [(_ & _ & err & _ & _ & ->) |
                                    (_ & _ & full & cs & _ & _ & _ & ->)]].
    + left. now rewrite app_nil_r.
    + right. eexists. eexists. now rewrite <- app_assoc.
    + right. exists full, cs. now rewrite <- app_assoc.
Qed.

Lemma user_turn_is_kept_witness :
  let prompt := "Test Co Q1 earnings" in
  let l := history_after
             (run (Local.main tavily_down_world "k" "qwen2.5:7b" (Some prompt))
                earlier_history) in
  let r := history_after
             (run (Remote.main empty_body_world "k" Remote.sonar false
                     (Some prompt)) earlier_history) in
  forallb displayable earlier_history = true /\
  str_truthy prompt = true /\
  str_truthy "k" = true /\
  (l = (earlier_history ++ [user_turn prompt])%list \/
   exists answer cites,
     l = (earlier_history ++ [user_turn prompt; assistant_turn answer cites])%list)
  /\
  (r = (earlier_history ++ [user_turn prompt])%list \/
   exists answer cites,
     r = (earlier_history ++ [user_turn prompt; assistant_turn answer cites])%list).
Proof.
  intros prompt l r. do 3 (split; [reflexivity|]).
  exact (user_turn_is_kept tavily_down_world empty_body_world "k" "qwen2.5:7b"
           Remote.sonar prompt earlier_history eq_refl eq_refl eq_refl).
Defined.



(** ** The default model of the select box *)

Lemma is_qwen_eq (v : value) : is_true (Sidebar.is_qwen v) <-> v = VStr "qwen2.5:7b".
Proof.
  unfold is_true, Sidebar.is_qwen. destruct v; try (split; discriminate).
  rewrite String.eqb_eq. split; [now intros -> | now intros [= ->]].
Qed.

Lemma index_qwen_found (names : list value) :
  Sidebar.qwen_listed names = true ->
  exists i,
    Sidebar.index_qwen names = Ok i /\
    nth_error names i = Some (VStr "qwen2.5:7b") /\ i < length names.
Proof.
  unfold Sidebar.qwen_listed.
  induction names as [|v names IH]; [discriminate|].
  cbn [existsb Sidebar.index_qwen].
  destruct (Sidebar.is_qwen v) eqn:Hv.
  - intros _. exists 0. apply is_qwen_eq in Hv. subst v.
    repeat split. simpl. lia.
  - cbn [orb]. intros H. destruct (IH H) as (i & -> & Hnth & Hlt).
    exists (S i). repeat split; [exact Hnth | simpl; lia].
Qed.

(** X17.  Whatever [ollama.list()] does, the model list of the select box
    is computed without an exception, and so is its default index, which
    never raises [ValueError]; the index is a valid position whenever the
    list is not empty; it points at [qwen2.5:7b] whenever that model is in
    the list; and after any failure of the discovery the list is
    [qwen2.5:7b] alone. *)
Theorem default_model_is_valid :
  forall listing : res value,
    let names := fst (Sidebar.model_names listing) in
    let warned := snd (Sidebar.model_names listing) in
    exists i,
      Sidebar.default_index names = Ok i /\
      (names <> [] -> i < length names) /\
      (In (VStr "qwen2.5:7b") names ->
       nth_error names i = Some (VStr "qwen2.5:7b")) /\
      (warned = true -> names = [VStr "qwen2.5:7b"] /\ i = 0).
Proof.
  intros listing names warned.
  assert (Hwarn : warned = true -> names = [VStr "qwen2.5:7b"]).
  { subst names warned. unfold Sidebar.model_names.
    destruct (Sidebar.list_models listing); [discriminate | reflexivity]. }
  unfold Sidebar.default_index.
  destruct (Sidebar.qwen_listed names) eqn:Hq.
  - destruct (index_qwen_found names Hq) as (i & Hi & Hnth & Hlt).
    exists i. split; [exact Hi|]. split; [intros _; exact Hlt|].
    split; [intros _; exact Hnth|].
    intros Hw. split; [now apply Hwarn|].
    rewrite (Hwarn Hw) in Hi. now injection Hi as <-.
  - exists 0. split; [reflexivity|]. split; [|split].
    + destruct names; [congruence | simpl; lia].
    + intros Hin. exfalso.
      assert (Sidebar.qwen_listed names = true); [|congruence].
      apply existsb_exists. exists (VStr "qwen2.5:7b"). now split.
    + intros Hw. split; [now apply Hwarn | reflexivity].
Qed.

Lemma model_fields_ok (ms names : list value) :
  Sidebar.model_fields ms = Ok names <->
  Forall2 (fun m name => getitem m "model" = Ok name) ms names.
Proof.
  revert names. induction ms as [|m ms IH]; intros names.
  - split; [intros [= <-]; constructor | intros H; now inversion H].
  - cbn [Sidebar.model_fields]. split.
    + destruct (getitem m "model") as [name|e] eqn:Hm; [|discriminate].
      cbn [res_bind].
      destruct (Sidebar.model_fields ms) as [names'|e]; [|discriminate].
      intros [= <-]. constructor; [exact Hm | now apply IH].
    + intros H. inversion H as [|? name ? names' Hm Hms]; subst.
      rewrite Hm. cbn [res_bind].
      apply IH in Hms. now rewrite Hms.
Qed.

(** X18.  When [ollama.list()] returns a list of models, the select box
    offers the ['model'] field of each, in the order listed, provided every
    entry has the field; a single entry without it discards the whole list
    for the fallback [qwen2.5:7b], with the warning shown. *)
Theorem discovered_models_or_fallback :
  forall (d : list (string * value)) (ms : list value),
    dict_get d "models" = Some (VList ms) ->
    (forall names,
       Forall2 (fun m name => getitem m "model" = Ok name) ms names ->
       Sidebar.model_names (Ok (VDict d)) = (names, false)) /\
    (forall m,
       In m ms -> (forall name, getitem m "model" <> Ok name) ->
       Sidebar.model_names (Ok (VDict d)) = ([VStr "qwen2.5:7b"], true)).
Proof.
  intros d ms Hd. unfold Sidebar.model_names, Sidebar.list_models.
  cbn [res_bind getitem]. rewrite Hd. cbn [res_bind py_iter]. split.
  - intros names Hnames. apply model_fields_ok in Hnames. now rewrite Hnames.
  - intros m Hin Hbad.
    destruct (Sidebar.model_fields ms) as [names|e] eqn:Hf; [|reflexivity].
    exfalso. apply model_fields_ok in Hf. clear Hd.
    induction Hf as [|m' name ms names Hm _ IH]; [destruct Hin|].
    destruct Hin as [-> | Hin]; [now apply (Hbad name) | now apply IH].
Qed.

Lemma discovered_models_or_fallback_witness :
  dict_get [("models",
             VList [VDict [("model", VStr "llama3:8b"); ("size", VInt 4)];
                    VDict [("model", VStr "qwen2.5:7b"); ("size", VInt 5)]])]
    "models" =
    Some (VList [VDict [("model", VStr "llama3:8b"); ("size", VInt 4)];
                 VDict [("model", VStr "qwen2.5:7b"); ("size", VInt 5)]]) /\
  Sidebar.model_names (Ok two_models) =
    ([VStr "llama3:8b"; VStr "qwen2.5:7b"], false) /\
  Sidebar.default_index [VStr "llama3:8b"; VStr "qwen2.5:7b"] = Ok 1.
Proof.
  split; [reflexivity|]. split; [|reflexivity].
  apply (proj1 (discovered_models_or_fallback
                  [("models",
                    VList [VDict [("model", VStr "llama3:8b"); ("size", VInt 4)];
                           VDict [("model", VStr "qwen2.5:7b"); ("size", VInt 5)]])]
                  [VDict [("model", VStr "llama3:8b"); ("size", VInt 4)];
                   VDict [("model", VStr "qwen2.5:7b"); ("size", VInt 5)]]
                  eq_refl)
           [VStr "llama3:8b"; VStr "qwen2.5:7b"]).
  repeat constructor.
Defined.

(** ** The display loops *)

Lemma filter_nil_forall {A : Type} (P : A -> bool) (Q : A -> Prop) (l : list A) :
  (forall x, Q x -> P x = false) -> Forall Q l -> filter P l = [].
Proof.
  intros HQ H. induction H as [|x l Hx _ IH]; [reflexivity|].
  simpl. now rewrite (HQ x Hx).
Qed.

Lemma for_each_enumerate_emit_run {A : Type} (f : nat -> A -> Event)
    (xs : list A) :
  forall (start : nat) (s : Script),
  exists evs,
    for_each_enumerate xs start (fun i x => emit (f i x)) s =
      (Done tt, {| messages := messages s; ui := ui s ++ evs |}) /\
    Forall (fun e => exists i x, e = f i x) evs.
Proof.
  induction xs as [|x xs IH]; intros start s.
  - exists []. split; [simpl; now rewrite script_eta | constructor].
  - cbn [for_each_enumerate]. unfold bind, emit at 1.
    destruct (IH (S start)
                {| messages := messages s; ui := ui s ++ [f start x] |})
      as (evs & Hrun & Hevs).
    exists (f start x :: evs). split.
    + rewrite Hrun. cbn [messages ui]. now rewrite <- app_assoc.
    + constructor; [now exists start, x | exact Hevs].
Qed.

(** What drawing one stored turn adds to the page. *)
Lemma local_display_message_run (msg : Turn) (s : Script) :
  displayable msg = true ->
  exists evs,
    Local.display_message msg s =
      (Done tt,
       {| messages := messages s;
          ui := ui s ++ st_chat_message (role msg)
                        :: st_markdown (content msg) :: evs |}) /\
    filter is_chat_message evs = [] /\
    filter is_expander evs =
      if has_citations msg then [st_expander "📚 Sources"] else [].
Proof.
  unfold displayable, Local.display_message, has_citations, bind, emit.
  cbn [messages ui].
  destruct (citations msg) as [c|].
  - destruct (truthy c).
    + destruct (py_iter c) as [cs|e]; [intros _|discriminate].
      cbn [when lift ret]. unfold bind, emit, ret. cbn [messages ui].
      rewrite (for_each_emit (fun c0 => st_markdown_f "- " c0)).
      cbn [messages ui].
      exists (st_expander "📚 Sources" :: map (fun c0 => st_markdown_f "- " c0) cs).
      split; [now rewrite <- !app_assoc|].
      cbn [filter is_chat_message is_expander].
      assert (Hall : Forall (fun e => exists c0, e = st_markdown_f "- " c0)
                       (map (fun c0 => st_markdown_f "- " c0) cs))
        by (apply Forall_forall; intros e He; apply in_map_iff in He;
            destruct He as (c0 & <- & _); now exists c0).
      split; [|f_equal];
        (eapply filter_nil_forall; [|exact Hall];
         intros e (c0 & ->); reflexivity).
    + intros _. cbn [when]. unfold ret. exists [].
      split; [now rewrite <- !app_assoc | split; reflexivity].
  - intros _. cbn [when]. unfold ret. exists [].
    split; [now rewrite <- !app_assoc | split; reflexivity].
Qed.

Lemma remote_display_message_run (msg : Turn) (s : Script) :
  displayable msg = true ->
  exists evs,
    Remote.display_message msg s =
      (Done tt,
       {| messages := messages s;
          ui := ui s ++ st_chat_message (role msg)
                        :: st_markdown (content msg) :: evs |}) /\
    filter is_chat_message evs = [] /\
    filter is_expander evs =
      if has_citations msg then [st_expander "📚 Verified Sources"] else [].
Proof.
  unfold displayable, Remote.display_message, has_citations.
  do 2 (unfold bind at 1; unfold emit at 1; cbn [messages ui]).
  destruct (citations msg) as [c|].
  - destruct (truthy c).
    + destruct (py_iter c) as [cs|e]; [intros _|discriminate].
      cbn [when lift]. unfold bind at 1. unfold emit at 1. cbn [messages ui].
      unfold bind at 1. unfold ret at 1.
      match goal with
      | |- context [for_each_enumerate cs 1 _ ?st] =>
          destruct (for_each_enumerate_emit_run
                      (fun i c0 => st_markdown_f (str_nat i ++ ". ") c0)
                      cs 1 st) as (evs & Hrun & Hall)
      end.
      rewrite Hrun. cbn [messages ui].
      exists (st_expander "📚 Verified Sources" :: evs).
      split; [now rewrite <- !app_assoc|].
      cbn [filter is_chat_message is_expander].
      split; [|f_equal];
        (eapply filter_nil_forall; [|exact Hall];
         intros e (i & c0 & ->); reflexivity).
    + intros _. cbn [when]. unfold ret. exists [].
      split; [now rewrite <- !app_assoc | split; reflexivity].
  - intros _. cbn [when]. unfold ret. exists [].
    split; [now rewrite <- !app_assoc | split; reflexivity].
Qed.

Lemma display_loop_run (dm : Turn -> M unit) (label : string) :
  (forall msg s, displayable msg = true ->
     exists evs,
       dm msg s =
         (Done tt,
          {| messages := messages s;
             ui := ui s ++ st_chat_message (role msg)
                           :: st_markdown (content msg) :: evs |}) /\
       filter is_chat_message evs = [] /\
       filter is_expander evs =
         if has_citations msg then [st_expander label] else []) ->
  forall (msgs : list Turn) (s : Script),
    forallb displayable msgs = true ->
    exists evs,
      for_each msgs dm s =
        (Done tt, {| messages := messages s; ui := ui s ++ evs |}) /\
      filter is_chat_message evs =
        map (fun t => st_chat_message (role t)) msgs /\
      filter is_expander evs =
        map (fun _ => st_expander label) (filter has_citations msgs).
Proof.
  intros Hdm msgs. induction msgs as [|msg msgs IH]; intros s Hd.
  - exists []. repeat split. simpl. now rewrite script_eta.
  - cbn [forallb] in Hd. apply andb_prop in Hd. destruct Hd as [Hmsg Hd].
    destruct (Hdm msg s Hmsg) as (evs1 & Hrun1 & Hchat1 & Hexp1).
    cbn [for_each]. unfold bind. rewrite Hrun1.
    match goal with
    | |- context [for_each msgs dm ?st] =>
        destruct (IH st Hd) as (evs2 & Hrun2 & Hchat2 & Hexp2)
    end.
    rewrite Hrun2. cbn [messages ui].
    exists (st_chat_message (role msg) :: st_markdown (content msg)
            :: evs1 ++ evs2)%list.
    split; [|split].
    + rewrite <- app_assoc. reflexivity.
    + cbn [filter is_chat_message map].
      now rewrite filter_app, Hchat1, Hchat2.
    + cbn [filter is_expander]. rewrite filter_app, Hexp1, Hexp2.
      destruct (has_citations msg); reflexivity.
Qed.

(** X19.  On a displayable history, a run of the local script draws one
    chat message per stored turn, in the stored order and under the stored
    role, and opens a "Sources" expander for exactly the turns that carry a
    non-empty citation list, in that order; the history is left as it was. *)
Theorem local_history_is_redrawn :
  forall (w : Local.World) (key model : string) (h : list Turn),
    forallb displayable h = true ->
    exists evs,
      run (Local.main w key model None) h =
        (Done tt, {| messages := h; ui := evs |}) /\
      filter is_chat_message evs = map (fun t => st_chat_message (role t)) h /\
      filter is_expander evs =
        map (fun _ => st_expander "📚 Sources") (filter has_citations h).
Proof.
  intros w key model h Hd.
  destruct (display_loop_run Local.display_message "📚 Sources"
              local_display_message_run h {| messages := h; ui := [] |} Hd)
    as (evs & Hrun & Hchat & Hexp).
  exists evs. split; [|now split].
  cbv beta iota delta [run Local.main bind Local.display_history get_messages
                         messages].
  fold Local.display_message. cbn [messages ui app] in Hrun. now rewrite Hrun.
Qed.

Lemma local_history_is_redrawn_witness :
  forallb displayable earlier_history = true /\
  exists evs,
    run (Local.main two_results_world "k" "qwen2.5:7b" None) earlier_history =
      (Done tt, {| messages := earlier_history; ui := evs |}) /\
    filter is_chat_message evs =
      [st_chat_message "user"; st_chat_message "assistant"] /\
    filter is_expander evs = [st_expander "📚 Sources"].
Proof.
  split; [reflexivity|].
  exact (local_history_is_redrawn two_results_world "k" "qwen2.5:7b"
           earlier_history eq_refl).
Defined.

(** X20.  On a displayable history, a run of the remote script draws one
    chat message per stored turn, in the stored order and under the stored
    role, and opens a "Verified Sources" expander for exactly the turns
    that carry non-empty citations, in that order; the history is left as
    it was and no request is sent. *)
Theorem remote_history_is_redrawn :
  forall (w : Remote.World) (key : string) (model : Remote.Model)
         (h : list Turn),
    forallb displayable h = true ->
    exists evs,
      run (Remote.main w key model false None) h =
        (Done tt, {| messages := h; ui := evs |}) /\
      filter is_chat_message evs = map (fun t => st_chat_message (role t)) h /\
      filter is_expander evs =
        map (fun _ => st_expander "📚 Verified Sources")
            (filter has_citations h).
Proof.
  intros w key model h Hd.
  destruct (display_loop_run Remote.display_message "📚 Verified Sources"
              remote_display_message_run h {| messages := h; ui := [] |} Hd)
    as (evs & Hrun & Hchat & Hexp).
  exists evs. split; [|now split].
  cbv beta iota delta [run Remote.main bind Remote.display_history
                         get_messages messages].
  fold Remote.display_message. cbn [messages ui app] in Hrun. now rewrite Hrun.
Qed.

Lemma remote_history_is_redrawn_witness :
  forallb displayable earlier_history_recited = true /\
  exists evs,
    run (Remote.main answering_world "k" Remote.sonar false None)
      earlier_history_recited =
      (Done tt, {| messages := earlier_history_recited; ui := evs |}) /\
    filter is_chat_message evs =
      [st_chat_message "user"; st_chat_message "assistant"] /\
    filter is_expander evs = [st_expander "📚 Verified Sources"].
Proof.
  split; [reflexivity|].
  exact (remote_history_is_redrawn answering_world "k" Remote.sonar
           earlier_history_recited eq_refl).
Defined.

(** ** The local model never sees the history *)

(** X21.  The outbound calls of a local run do not depend on the stored
    history: from any two displayable histories, the same widget values and
    the same prompt lead to the same Tavily call and the same model call,
    whose messages are built from the prompt and the search context
    alone. *)
Theorem local_calls_ignore_history :
  forall (w : Local.World) (key model : string) (chat_input : option string)
         (h1 h2 : list Turn),
    forallb displayable h1 = true ->
    forallb displayable h2 = true ->
    filter is_network (trace (run (Local.main w key model chat_input) h1)) =
    filter is_network (trace (run (Local.main w key model chat_input) h2)).
Proof.
  intros w key model chat_input h1 h2 Hd1 Hd2.
  assert (Hquiet : forall h prompt,
            chat_input = Some prompt -> str_truthy prompt = false ->
            filter is_network
              (trace (run (Local.main w key model chat_input) h)) = []).
  { intros h prompt -> Hp. unfold trace.
    destruct (local_main_cases w key model (Some prompt) h)
      as [(evs & Hevs & Hs) | (p & evs & [= <-] & Hp' & _)]; [|congruence].
    rewrite Hs. now apply filter_network_render. }
  destruct chat_input as [prompt|].
  - destruct (str_truthy prompt) eqn:Hp.
    + now rewrite !local_main_network.
    + now rewrite (Hquiet h1 prompt eq_refl Hp), (Hquiet h2 prompt eq_refl Hp).
  - unfold trace.
    destruct (local_main_cases w key model None h1)
      as [(evs1 & Hevs1 & Hs1) | (p & evs & [=] & _)].
    destruct (local_main_cases w key model None h2)
      as [(evs2 & Hevs2 & Hs2) | (p & evs & [=] & _)].
    rewrite Hs1, Hs2. cbn [ui].
    now rewrite !filter_network_render.
Qed.

Lemma local_calls_ignore_history_witness :
  let calls h :=
    filter is_network
      (trace (run (Local.main two_results_world "tvly-key" "qwen2.5:7b"
                     (Some "Test Co Q1 earnings")) h)) in
  forallb displayable [] = true /\
  forallb displayable earlier_history = true /\
  length (calls []) = 2 /\
  calls [] = calls earlier_history.
Proof.
  intros calls. do 3 (split; [reflexivity|]).
  exact (local_calls_ignore_history two_results_world "tvly-key" "qwen2.5:7b"
           (Some "Test Co Q1 earnings") [] earlier_history eq_refl eq_refl).
Defined.

(** A completion whose citations are the number 5: the answer is drawn,
    listing the citations raises, and nothing is stored after the user's
    turn. *)
Example remote_citations_not_iterable_run :
  let body :=
    VDict [("choices",
            VList [VDict [("message", VDict [("content", VStr "Margins held.")])]]);
           ("citations", VInt 5)] in
  let w := {| Remote.post := fun _ _ _ =>
                Ok {| Remote.raise_for_status := Ok tt;
                      Remote.json := Ok body |} |} in
  let r := run (Remote.main w "pplx-key" Remote.sonar false
                  (Some "Analyze Apple's latest 10-K risks")) [] in
  fst r = Uncaught (TypeError "object is not iterable") /\
  history_after r =
    [{| role := "user"; content := VStr "Analyze Apple's latest 10-K risks";
        citations := None |}].
Proof. split; reflexivity. Qed.
